(** * R140 amplifier controller: band decode and PTT interlock

    Shallow embedding of the band / PTT logic of
    [sergej-arduino/R140_control.ino] (the current firmware) and of
    [sergej-arduino/sergej_basic.ino] (the earlier sketch), with the
    properties the specification states about them.

    Conventions.
    - [unsigned long] is 32 bits wide on the target; values are [Z] and the
      wrap-around of every unsigned operation is written out ([ulong]).
    - [uint8_t] values are [Z] as well; the only arithmetic on them is
      bitwise and keeps them below 256.
    - A pin level is a [bool]: [HIGH] is [true], [LOW] is [false].
    - The globals of the sketch are the fields of [Machine]; a function of
      the sketch is a computation in the monad [M], which threads the
      globals, counts the [millis()] calls and collects what is written to
      the pins, to the serial line and to the MQTT client.
    - Lines printed with [Serial.print] directly (boot banners, the
      one-minute notice) carry no state and are left out of the trace; only
      [publishDebugMessage] and [publishAmpStatus] produce trace events.
    - The web server, the MQTT keep-alive / reconnect and the WiFi set-up
      are outside the embedding.  The only one of their functions that
      writes a global of the band / PTT logic, [handleSave], restarts the
      board right after; within one boot the block time is the one
      [setup()] loaded. *)

From Stdlib Require Import ZArith Lia Bool List String Ascii.
From stdpp Require Import base option list gmap.
Import ListNotations.

#[local] Open Scope Z_scope.

(** ** Machine integers *)

Definition ULONG_BITS : Z := 32.

(** Reduction of a result to [unsigned long]. *)
Definition ulong (x : Z) : Z := x mod 2 ^ ULONG_BITS.

(** Reduction of a result to [uint8_t]. *)
Definition u8 (x : Z) : Z := x mod 256.

Definition HIGH : bool := true.
Definition LOW : bool := false.

(** ** Constants of the sketch *)

Definition Mask : Z := 15.

Definition pttInp : Z := 7.
Definition pttOut : Z := 6.
(** [A0] of the ESP8266 core. *)
Definition A0 : Z := 17.
Definition uglasevanje : Z := A0.

Definition bandInPins : list Z := [2; 3; 4; 5].
Definition bandOutPins : list Z := [8; 9; 10; 11].

(** [arr[i]] for the two constant pin tables; every index the sketch uses
    is below 4. *)
Definition pin_at (arr : list Z) (i : nat) : Z := default 0 (arr !! i).

(** ** Trace events *)

(** The texts handed to [publishDebugMessage], one constructor per format
    string, with the values substituted for its conversions. *)
Inductive DebugMsg : Type :=
| MsgTxOn                          (* "[PTT] IN active and allowed -> TX ON" *)
| MsgBlocked (secs : Z)            (* "[PTT] IN active BUT BLOCKED (%d s after band change)" *)
| MsgTxOff                         (* "[PTT] IN released -> TX OFF" *)
| MsgBandChange (prev new : Z)     (* "[BAND] change detected: %u -> %u" *)
| MsgBandBlocking (secs : Z)       (* "[BAND] Blocking PTT for %d s" *)
| MsgBandPattern (b pattern : Z)   (* "[BAND] code=%u -> pattern=0b%04b" *)
| MsgUglasevanje.                  (* "[INFO] Uglasevanje input LOW (active)" *)

(** The JSON document built by [publishAmpStatus]. *)
Record Snapshot : Type := {
  snap_ptt : bool;          (* "ptt": true is "TX" *)
  snap_band : Z;            (* "band" *)
  snap_block : bool;        (* "block" *)
  snap_block_ms_left : Z;   (* "block_ms_left" *)
}.

Inductive Event : Type :=
| PinWrite (pin : Z) (level : bool)   (* digitalWrite *)
| SerialLine (msg : DebugMsg)         (* Serial.println in publishDebugMessage *)
| MqttDebug (msg : DebugMsg)          (* client.publish(topic_debug, ...) *)
| MqttStatus (snap : Snapshot).       (* client.publish(topic_status, ...) *)

(** ** The outside world during one pass *)

Record Env : Type := {
  pin_level : Z -> bool;          (* what digitalRead returns for a pin *)
  clock : nat -> Z;               (* what the k-th millis() call of the pass returns *)
  mqtt_connected : bool;          (* client.connected() *)
  eeprom_block_seconds : Z;       (* the int stored at EEPROM offset 140 *)
  wifi_joins : bool;              (* whether setupWiFi associates as a station *)
}.

(** ** The globals *)

Record Machine : Type := {
  band : Z;
  bandOld : Z;
  lastBandChangeTime : Z;
  bandBlockTimeMs : Z;
  block_ptt_seconds : Z;
  pttState : bool;                (* false=RX, true=TX *)
  pttBlockReported : bool;
  debugEnabled : bool;
  debugDeadline : Z;
  topic_status_set : bool;        (* topic_status[0] != '\0' *)
  topic_debug_set : bool;         (* topic_debug[0] != '\0' *)
  pin_out : gmap Z bool;          (* level last written to each output pin *)
}.

Definition set_band (v : Z) (m : Machine) : Machine :=
  {| band := v; bandOld := bandOld m; lastBandChangeTime := lastBandChangeTime m;
     bandBlockTimeMs := bandBlockTimeMs m; block_ptt_seconds := block_ptt_seconds m;
     pttState := pttState m; pttBlockReported := pttBlockReported m;
     debugEnabled := debugEnabled m; debugDeadline := debugDeadline m;
     topic_status_set := topic_status_set m; topic_debug_set := topic_debug_set m;
     pin_out := pin_out m |}.

Definition set_bandOld (v : Z) (m : Machine) : Machine :=
  {| band := band m; bandOld := v; lastBandChangeTime := lastBandChangeTime m;
     bandBlockTimeMs := bandBlockTimeMs m; block_ptt_seconds := block_ptt_seconds m;
     pttState := pttState m; pttBlockReported := pttBlockReported m;
     debugEnabled := debugEnabled m; debugDeadline := debugDeadline m;
     topic_status_set := topic_status_set m; topic_debug_set := topic_debug_set m;
     pin_out := pin_out m |}.

Definition set_lastBandChangeTime (v : Z) (m : Machine) : Machine :=
  {| band := band m; bandOld := bandOld m; lastBandChangeTime := v;
     bandBlockTimeMs := bandBlockTimeMs m; block_ptt_seconds := block_ptt_seconds m;
     pttState := pttState m; pttBlockReported := pttBlockReported m;
     debugEnabled := debugEnabled m; debugDeadline := debugDeadline m;
     topic_status_set := topic_status_set m; topic_debug_set := topic_debug_set m;
     pin_out := pin_out m |}.

Definition set_blockConfig (secs ms : Z) (m : Machine) : Machine :=
  {| band := band m; bandOld := bandOld m; lastBandChangeTime := lastBandChangeTime m;
     bandBlockTimeMs := ms; block_ptt_seconds := secs;
     pttState := pttState m; pttBlockReported := pttBlockReported m;
     debugEnabled := debugEnabled m; debugDeadline := debugDeadline m;
     topic_status_set := topic_status_set m; topic_debug_set := topic_debug_set m;
     pin_out := pin_out m |}.

Definition set_pttState (v : bool) (m : Machine) : Machine :=
  {| band := band m; bandOld := bandOld m; lastBandChangeTime := lastBandChangeTime m;
     bandBlockTimeMs := bandBlockTimeMs m; block_ptt_seconds := block_ptt_seconds m;
     pttState := v; pttBlockReported := pttBlockReported m;
     debugEnabled := debugEnabled m; debugDeadline := debugDeadline m;
     topic_status_set := topic_status_set m; topic_debug_set := topic_debug_set m;
     pin_out := pin_out m |}.

Definition set_pttBlockReported (v : bool) (m : Machine) : Machine :=
  {| band := band m; bandOld := bandOld m; lastBandChangeTime := lastBandChangeTime m;
     bandBlockTimeMs := bandBlockTimeMs m; block_ptt_seconds := block_ptt_seconds m;
     pttState := pttState m; pttBlockReported := v;
     debugEnabled := debugEnabled m; debugDeadline := debugDeadline m;
     topic_status_set := topic_status_set m; topic_debug_set := topic_debug_set m;
     pin_out := pin_out m |}.

Definition set_debugEnabled (v : bool) (m : Machine) : Machine :=
  {| band := band m; bandOld := bandOld m; lastBandChangeTime := lastBandChangeTime m;
     bandBlockTimeMs := bandBlockTimeMs m; block_ptt_seconds := block_ptt_seconds m;
     pttState := pttState m; pttBlockReported := pttBlockReported m;
     debugEnabled := v; debugDeadline := debugDeadline m;
     topic_status_set := topic_status_set m; topic_debug_set := topic_debug_set m;
     pin_out := pin_out m |}.

Definition set_debugDeadline (v : Z) (m : Machine) : Machine :=
  {| band := band m; bandOld := bandOld m; lastBandChangeTime := lastBandChangeTime m;
     bandBlockTimeMs := bandBlockTimeMs m; block_ptt_seconds := block_ptt_seconds m;
     pttState := pttState m; pttBlockReported := pttBlockReported m;
     debugEnabled := debugEnabled m; debugDeadline := v;
     topic_status_set := topic_status_set m; topic_debug_set := topic_debug_set m;
     pin_out := pin_out m |}.

Definition set_topics (st db : bool) (m : Machine) : Machine :=
  {| band := band m; bandOld := bandOld m; lastBandChangeTime := lastBandChangeTime m;
     bandBlockTimeMs := bandBlockTimeMs m; block_ptt_seconds := block_ptt_seconds m;
     pttState := pttState m; pttBlockReported := pttBlockReported m;
     debugEnabled := debugEnabled m; debugDeadline := debugDeadline m;
     topic_status_set := st; topic_debug_set := db;
     pin_out := pin_out m |}.

Definition set_pin_out (v : gmap Z bool) (m : Machine) : Machine :=
  {| band := band m; bandOld := bandOld m; lastBandChangeTime := lastBandChangeTime m;
     bandBlockTimeMs := bandBlockTimeMs m; block_ptt_seconds := block_ptt_seconds m;
     pttState := pttState m; pttBlockReported := pttBlockReported m;
     debugEnabled := debugEnabled m; debugDeadline := debugDeadline m;
     topic_status_set := topic_status_set m; topic_debug_set := topic_debug_set m;
     pin_out := v |}.

(** The initialisers of the globals (lines 37-95). *)
Definition power_on : Machine :=
  {| band := 255; bandOld := 255; lastBandChangeTime := 0;
     bandBlockTimeMs := 15000; block_ptt_seconds := 15;
     pttState := false; pttBlockReported := false;
     debugEnabled := true; debugDeadline := 60000;
     topic_status_set := false; topic_debug_set := false;
     pin_out := ∅ |}.

(** ** The monad of the sketch's functions *)

(** A computation reads the outside world, continues the count of
    [millis()] calls, updates the globals and appends to the trace. *)
Definition M (A : Type) : Type :=
  Env -> nat -> Machine -> A * nat * Machine * list Event.

Definition ret {A} (a : A) : M A := fun _ rd m => (a, rd, m, []).

Definition bind {A B} (c : M A) (k : A -> M B) : M B :=
  fun env rd m =>
    let '(a, rd1, m1, ev1) := c env rd m in
    let '(b, rd2, m2, ev2) := k a env rd1 m1 in
    (b, rd2, m2, ev1 ++ ev2).

Declare Scope fw_scope.
Delimit Scope fw_scope with fw.
Notation "'let*' x := c 'in' k" := (bind c (fun x => k))
  (at level 10, x name, c at level 100, k at level 200) : fw_scope.
Notation "c1 ;; c2" := (bind c1 (fun _ => c2))
  (at level 100, c2 at level 200, right associativity) : fw_scope.
#[local] Open Scope fw_scope.

Definition gets {A} (f : Machine -> A) : M A := fun _ rd m => (f m, rd, m, []).
Definition modify (f : Machine -> Machine) : M unit := fun _ rd m => (tt, rd, f m, []).
Definition emit (e : Event) : M unit := fun _ rd m => (tt, rd, m, [e]).
Definition when (b : bool) (c : M unit) : M unit := if b then c else ret tt.

(** The results of a computation. *)
Definition value_of {A} (r : A * nat * Machine * list Event) : A := r.1.1.1.
Definition reads_of {A} (r : A * nat * Machine * list Event) : nat := r.1.1.2.
Definition machine_of {A} (r : A * nat * Machine * list Event) : Machine := r.1.2.
Definition events_of {A} (r : A * nat * Machine * list Event) : list Event := r.2.

(** ** Arduino primitives *)

Definition millis : M Z := fun env rd m => (clock env rd, S rd, m, []).
Definition digitalRead (pin : Z) : M bool := fun env rd m => (pin_level env pin, rd, m, []).
Definition digitalWrite (pin : Z) (level : bool) : M unit :=
  modify (fun m => set_pin_out (<[pin := level]> (pin_out m)) m);; emit (PinWrite pin level).
Definition client_connected : M bool := fun env rd m => (mqtt_connected env, rd, m, []).

(** [for (int i = 0; i < n; i++)] with the local variables of the loop
    body carried in [acc]. *)
Fixpoint for_range {A} (n : nat) (body : nat -> A -> M A) (acc : A) : M A :=
  match n with
  | O => ret acc
  | S k => let* acc' := for_range k body acc in body k acc'
  end.

(** ** Debug helpers (lines 100-107) *)

Definition publishDebugMessage (msg : DebugMsg) : M unit :=
  let* enabled := gets debugEnabled in
  if negb enabled then ret tt
  else
    emit (SerialLine msg);;
    let* connected := client_connected in
    let* has_topic := gets topic_debug_set in
    when (connected && has_topic) (emit (MqttDebug msg)).

(** ** Block window *)

(** [now - lastBandChangeTime <= bandBlockTimeMs] on [unsigned long]
    (lines 307, 343 and 498 are the same expression). *)
Definition block_window_active (now changedAt durationMs : Z) : bool :=
  ulong (now - changedAt) <=? durationMs.

(** ** MQTT status (lines 336-354) *)

Definition publishAmpStatus : M unit :=
  let* connected := client_connected in
  let* has_topic := gets topic_status_set in
  if negb connected || negb has_topic then ret tt
  else
    let* ptt := gets pttState in
    let* b := gets band in
    let* t1 := millis in
    let* changedAt := gets lastBandChangeTime in
    let* duration := gets bandBlockTimeMs in
    let blockActive := block_window_active t1 changedAt duration in
    let* left :=
      (if blockActive
       then let* t2 := millis in ret (ulong (duration - ulong (t2 - changedAt)))
       else ret 0) in
    emit (MqttStatus {| snap_ptt := ptt; snap_band := b;
                        snap_block := blockActive; snap_block_ms_left := left |}).

(** ** Band / PTT logic (lines 391-549) *)

Definition readBandCode : M Z :=
  let* value :=
    for_range 4 (fun i value =>
      let* val := digitalRead (pin_at bandInPins i) in
      ret (if val then u8 (Z.lor value (Z.shiftl 1 (Z.of_nat i))) else value)) 0 in
  ret (Z.land value Mask).

(** The [switch] of [applyBandOutputs]. *)
Definition band_pattern (b : Z) : Z :=
  match b with
  | 15 => 15   (* 0b1111 *)
  | 14 => 0    (* 0b0000 *)
  | 13 => 1    (* 0b0001 *)
  | 12 => 2    (* 0b0010 *)
  | 11 => 3    (* 0b0011 *)
  | 10 => 4    (* 0b0100 *)
  | 9 => 5     (* 0b0101 *)
  | 8 => 6     (* 0b0110 *)
  | 7 => 7     (* 0b0111 *)
  | 6 => 8     (* 0b1000 *)
  | 5 => 9     (* 0b1001 *)
  | _ => 15    (* default: 0b1111 *)
  end.

Definition applyBandOutputs (b : Z) : M unit :=
  let pattern := band_pattern b in
  for_range 4 (fun i _ =>
    digitalWrite (pin_at bandOutPins i)
      (if Z.land pattern (Z.shiftl 1 (Z.of_nat i)) =? 0 then LOW else HIGH)) tt;;
  publishDebugMessage (MsgBandPattern b pattern).

Definition bandControl : M unit :=
  let* newBand := readBandCode in
  let* old := gets bandOld in
  if newBand =? old then modify (set_band newBand)
  else
    modify (set_band newBand);;
    let* prev := gets bandOld in
    modify (set_bandOld newBand);;
    publishDebugMessage (MsgBandChange prev newBand);;
    let* t := millis in
    modify (set_lastBandChangeTime t);;
    let* secs := gets block_ptt_seconds in
    publishDebugMessage (MsgBandBlocking secs);;
    applyBandOutputs newBand;;
    publishAmpStatus.

Definition handleAmplifierLogic : M unit :=
  let* in_ptt := digitalRead pttInp in
  let* in_ugl := digitalRead uglasevanje in
  let* now := millis in
  let* changedAt := gets lastBandChangeTime in
  let* duration := gets bandBlockTimeMs in
  let blockActive := block_window_active now changedAt duration in
  let pttAllowed := negb blockActive in
  let pttPressed := Bool.eqb in_ptt LOW in
  let* prevPtt := gets pttState in
  (if pttPressed then
     if pttAllowed then
       (let* tx := gets pttState in
        when (negb tx) (publishDebugMessage MsgTxOn));;
       digitalWrite pttOut HIGH;;
       modify (set_pttState true);;
       modify (set_pttBlockReported false)
     else
       (let* reported := gets pttBlockReported in
        when (negb reported)
          (let* secs := gets block_ptt_seconds in
           publishDebugMessage (MsgBlocked secs);;
           modify (set_pttBlockReported true)));;
       digitalWrite pttOut LOW;;
       modify (set_pttState false)
   else
     (let* tx := gets pttState in
      when tx (publishDebugMessage MsgTxOff));;
     digitalWrite pttOut LOW;;
     modify (set_pttState false);;
     modify (set_pttBlockReported false);;
     bandControl);;
  let* tx := gets pttState in
  when (negb (Bool.eqb tx prevPtt)) publishAmpStatus;;
  when (Bool.eqb in_ugl LOW) (publishDebugMessage MsgUglasevanje).

(** ** Setup and loop (lines 554-612) *)

(** The part of [loadConfigFromEEPROM] that concerns the block time
    (lines 119, 128-131). *)
Definition loadConfigFromEEPROM : M unit :=
  fun env =>
    let stored := eeprom_block_seconds env in
    let secs := if (stored <=? 0) || (600 <? stored) then 15 else stored in
    modify (set_blockConfig secs (ulong (secs * 1000))) env.

(** What [setupWiFi] leaves in the globals: the two topics are filled in
    exactly when the station association succeeds (lines 156-194). *)
Definition setupWiFi : M unit :=
  fun env => (if wifi_joins env then modify (set_topics true true) else ret tt) env.

Definition setup : M unit :=
  let* t := millis in
  let* deadline := gets debugDeadline in
  modify (set_debugDeadline (ulong (deadline + t)));;
  loadConfigFromEEPROM;;
  setupWiFi;;
  for_range 4 (fun i _ => digitalWrite (pin_at bandOutPins i) LOW) tt;;
  let* code := readBandCode in
  modify (set_bandOld code);;
  let* old := gets bandOld in
  modify (set_band old);;
  let* b := gets band in
  applyBandOutputs b.

(** Lines 607-612 of [loop]. *)
Definition debugTimeout : M unit :=
  let* enabled := gets debugEnabled in
  let* deadline := gets debugDeadline in
  let* due :=
    (if enabled && negb (deadline =? 0)
     then let* t := millis in ret (deadline <=? t)
     else ret false) in
  when due (modify (set_debugEnabled false);; modify (set_debugDeadline 0)).

(** One pass of [loop], up to the hand-over to the web server and the
    MQTT client (line 614). *)
Definition loop : M unit :=
  handleAmplifierLogic;;
  debugTimeout.

(** ** Runs *)

(** One pass of [loop] as seen from outside: the globals before it, the
    outside world, the globals and the trace of [handleAmplifierLogic],
    and the globals and the trace of the whole pass. *)
Record Pass : Type := {
  p_before : Machine;
  p_env : Env;
  p_logic : Machine;
  p_logic_events : list Event;
  p_after : Machine;
  p_events : list Event;
}.

Definition pass_of (env : Env) (m : Machine) : Pass :=
  let r := handleAmplifierLogic env O m in
  let r' := loop env O m in
  {| p_before := m; p_env := env;
     p_logic := machine_of r; p_logic_events := events_of r;
     p_after := machine_of r'; p_events := events_of r' |}.

(** The passes of [loop] on a sequence of outside worlds, one per pass. *)
Fixpoint run (m : Machine) (envs : list Env) : list Pass :=
  match envs with
  | [] => []
  | env :: rest =>
      let p := pass_of env m in
      p :: run (p_after p) rest
  end.

(** The globals after [setup()]. *)
Definition booted (env0 : Env) : Machine := machine_of (setup env0 O power_on).

(** Readings of one pass. *)
Definition pttPressed (env : Env) : bool := Bool.eqb (pin_level env pttInp) LOW.
Definition blockActive (env : Env) (m : Machine) : bool :=
  block_window_active (clock env O) (lastBandChangeTime m) (bandBlockTimeMs m).
Definition bandCode (env : Env) : Z := value_of (readBandCode env O power_on).

(** The parts of a trace. *)
Definition debug_lines (evs : list Event) : list DebugMsg :=
  omap (fun e => match e with SerialLine msg => Some msg | _ => None end) evs.
Definition status_snapshots (evs : list Event) : list Snapshot :=
  omap (fun e => match e with MqttStatus s => Some s | _ => None end) evs.
Definition pin_writes (evs : list Event) : list (Z * bool) :=
  omap (fun e => match e with PinWrite p l => Some (p, l) | _ => None end) evs.

(** Whether the pass denies a pressed PTT: pressed while the block window
    is active. *)
Definition denied (env : Env) (m : Machine) : bool :=
  pttPressed env && blockActive env m.

(** Whether [bandControl] would find a new band code. *)
Definition bandChanged (env : Env) (m : Machine) : bool :=
  negb (bandCode env =? bandOld m).

Definition is_denial_line (msg : DebugMsg) : bool :=
  match msg with MsgBlocked _ => true | _ => false end.

Definition denial_lines (evs : list Event) : list DebugMsg :=
  filter (fun msg => is_denial_line msg = true) (debug_lines evs).

Definition mqtt_debug_lines (evs : list Event) : list DebugMsg :=
  omap (fun e => match e with MqttDebug msg => Some msg | _ => None end) evs.

(** What one call of [publishDebugMessage] appends to the trace, given
    [debugEnabled] and whether the debug topic can be published to. *)
Definition debug_text (enabled link : bool) (msg : DebugMsg) : list Event :=
  if enabled then SerialLine msg :: (if link then [MqttDebug msg] else []) else [].

Definition debug_out (env : Env) (m : Machine) (msg : DebugMsg) : list Event :=
  debug_text (debugEnabled m) (mqtt_connected env && topic_debug_set m) msg.

(** Whether [publishAmpStatus] gets past its first line. *)
Definition status_link (env : Env) (m : Machine) : bool :=
  mqtt_connected env && topic_status_set m.

(** The document [publishAmpStatus] builds when its first [millis()] call
    is the [rd]-th of the pass. *)
Definition status_snapshot (env : Env) (rd : nat) (m : Machine) : Snapshot :=
  let active :=
    block_window_active (clock env rd) (lastBandChangeTime m) (bandBlockTimeMs m) in
  {| snap_ptt := pttState m; snap_band := band m; snap_block := active;
     snap_block_ms_left :=
       if active
       then ulong (bandBlockTimeMs m - ulong (clock env (S rd) - lastBandChangeTime m))
       else 0 |}.

Definition status_text (link : bool) (snap : Snapshot) : list Event :=
  if link then [MqttStatus snap] else [].

(** What one call of [publishAmpStatus] appends to the trace, and where it
    leaves the count of [millis()] calls. *)
Definition status_out (env : Env) (rd : nat) (m : Machine) : list Event :=
  status_text (status_link env m) (status_snapshot env rd m).

Definition status_reads (env : Env) (rd : nat) (m : Machine) : nat :=
  if status_link env m
  then if block_window_active (clock env rd) (lastBandChangeTime m) (bandBlockTimeMs m)
       then S (S rd) else S rd
  else rd.

(** The level [applyBandOutputs b] writes to output [i], the output
    latches after its loop, and the writes of the loop. *)
Definition band_level (b : Z) (i : nat) : bool :=
  if Z.land (band_pattern b) (Z.shiftl 1 (Z.of_nat i)) =? 0 then LOW else HIGH.

Definition band_pins (b : Z) (po : gmap Z bool) : gmap Z bool :=
  <[11 := band_level b 3]> (<[10 := band_level b 2]>
    (<[9 := band_level b 1]> (<[8 := band_level b 0]> po))).

Definition band_writes (b : Z) : list Event :=
  [PinWrite 8 (band_level b 0); PinWrite 9 (band_level b 1);
   PinWrite 10 (band_level b 2); PinWrite 11 (band_level b 3)].

(** The line logged at the end of a pass while the tuning input is LOW. *)
Definition ugl_out (env : Env) (m : Machine) : list Event :=
  if Bool.eqb (pin_level env uglasevanje) LOW then debug_out env m MsgUglasevanje else [].

(** [digitalWrite(pttOut, level)] on the globals. *)
Definition write_ptt (level : bool) (m : Machine) : Machine :=
  set_pin_out (<[pttOut := level]> (pin_out m)) m.

(** ** The four occasions for a debug line that the specification lists *)

Inductive Trigger : Type :=
| TrigBandChange     (* band-change detected *)
| TrigDenialOnset    (* PTT denial onset *)
| TrigTxOn           (* PTT becomes allowed and asserts *)
| TrigRelease.       (* PTT release *)

Definition trigger_of (msg : DebugMsg) : option Trigger :=
  match msg with
  | MsgTxOn => Some TrigTxOn
  | MsgBlocked _ => Some TrigDenialOnset
  | MsgTxOff => Some TrigRelease
  | MsgBandChange _ _ | MsgBandBlocking _ | MsgBandPattern _ _ => Some TrigBandChange
  | MsgUglasevanje => None
  end.

(** The occasion as the pass meets it, on the globals at its start. *)
Definition trigger_fires (t : Trigger) (env : Env) (m : Machine) : bool :=
  match t with
  | TrigBandChange => negb (pttPressed env) && bandChanged env m
  | TrigDenialOnset => denied env m && negb (pttBlockReported m)
  | TrigTxOn => pttPressed env && negb (blockActive env m) && negb (pttState m)
  | TrigRelease => negb (pttPressed env) && pttState m
  end.

(** The globals of the interlock proper: TX/RX state, the denial latch,
    the stored band code and the block window. *)
Definition interlock_state (m : Machine) : bool * bool * Z * Z * Z * Z :=
  (pttState m, pttBlockReported m, band m, bandOld m,
   lastBandChangeTime m, bandBlockTimeMs m).

(** ** The table of section 4.2 of the specification *)

(** Follows the specification's words, not the source: band code and
    pattern, the pattern written OUT3 OUT2 OUT1 OUT0. *)
Definition spec_table_rows : list (Z * Z) :=
  [ (15, 15) (* 1111 *); (14, 0) (* 0000 *); (13, 1) (* 0001 *);
    (12, 2) (* 0010 *); (11, 3) (* 0011 *); (10, 4) (* 0100 *);
    (9, 5) (* 0101 *); (8, 6) (* 0110 *); (7, 7) (* 0111 *);
    (6, 8) (* 1000 *); (5, 9) (* 1001 *) ].

(** Codes 0-4 are the unmapped ones: 1111. *)
Definition spec_output_pattern (b : Z) : Z :=
  default 15 ((list_to_map spec_table_rows : gmap Z Z) !! b).

(** ** The earlier sketch ([sergej_basic.ino]) *)

Module Basic.

Record Machine : Type := {
  band : Z;
  bandOld : Z;
  PORTD : Z;        (* the 8-bit output register of port D *)
}.

Inductive Event : Type :=
| PrintExisting (b : Z)    (* "Obstojece: " and the band *)
| PrintNew (b : Z).        (* "NOVO: " and the band *)

(** The [switch] of [bandControl] (lines 38-84), on the register value. *)
Definition switch_PORTD (b portd : Z) : Z :=
  match b with
  | 15 => Z.lor portd 60                  (* PORTD |= B00111100 *)
  | 14 => Z.land portd 195                (* PORTD &= B11000011 *)
  | 13 => Z.lor (Z.land portd 195) 4      (* |= B00000100 *)
  | 12 => Z.lor (Z.land portd 195) 8      (* |= B00001000 *)
  | 11 => Z.lor (Z.land portd 195) 12     (* |= B00001100 *)
  | 10 => Z.lor (Z.land portd 195) 16     (* |= B00010000 *)
  | 9 => Z.lor (Z.land portd 195) 20      (* |= B00010100 *)
  | 8 => Z.lor (Z.land portd 195) 24      (* |= B00011000 *)
  | 7 => Z.lor (Z.land portd 195) 28      (* |= B00011100 *)
  | 6 => Z.lor (Z.land portd 195) 32      (* |= B00100000 *)
  | 5 => Z.lor (Z.land portd 195) 36      (* |= B00100100 *)
  | _ => Z.lor portd 60                   (* default: PORTD |= B00111100 *)
  end.

(** [bandControl] (lines 29-87); [PINC] is the input register read at
    line 30. *)
Definition bandControl (PINC : Z) (m : Machine) : Machine * list Event :=
  let b := Z.land PINC Mask in
  if b =? bandOld m
  then ({| band := b; bandOld := bandOld m; PORTD := PORTD m |}, [PrintExisting b])
  else ({| band := b; bandOld := b; PORTD := switch_PORTD b (PORTD m) |}, [PrintNew b]).

End Basic.

(** ** Concrete worlds for the examples *)

(** Pin levels: PTT input, tuning input, and the four band inputs. *)
Definition pins_of (ptt ugl b0 b1 b2 b3 : bool) : Z -> bool :=
  fun pin =>
    if pin =? pttInp then ptt
    else if pin =? uglasevanje then ugl
    else if pin =? 2 then b0
    else if pin =? 3 then b1
    else if pin =? 4 then b2
    else if pin =? 5 then b3
    else LOW.

(** A pass during which every [millis()] call returns [t]; the block time
    stored in the EEPROM is 15 s. *)
Definition world (t : Z) (online : bool) (ptt ugl b0 b1 b2 b3 : bool) : Env :=
  {| pin_level := pins_of ptt ugl b0 b1 b2 b3; clock := fun _ => t;
     mqtt_connected := online; eeprom_block_seconds := 15; wifi_joins := online |}.

(** Boot at 10 ms with the band pins at (1,1,1,0): band code 7. *)
Definition boot_world (online : bool) : Env :=
  world 10 online HIGH HIGH HIGH HIGH HIGH LOW.

(** What the scenarios look at after a pass: the stored band code, the
    TX/RX state, the levels of the PTT output and of the four band
    outputs, the number of status snapshots and the debug lines. *)
Definition pass_summary (p : Pass)
  : Z * bool * option bool * list (option bool) * nat * list DebugMsg :=
  (bandOld (p_after p), pttState (p_after p), pin_out (p_after p) !! pttOut,
   map (fun i : nat => pin_out (p_after p) !! pin_at bandOutPins i) [0; 1; 2; 3]%nat,
   length (status_snapshots (p_events p)), debug_lines (p_events p)).

(** The condition of line 608, with its [millis()] call the [rd]-th of the
    pass. *)
Definition timed_out (env : Env) (rd : nat) (m : Machine) : bool :=
  debugEnabled m && negb (debugDeadline m =? 0) && (debugDeadline m <=? clock env rd).

(** The debug lines the four occasions call for, in the order the pass
    logs them, and the line of the tuning input. *)
Definition trigger_lines (env : Env) (m : Machine) : list DebugMsg :=
  (if trigger_fires TrigTxOn env m then [MsgTxOn] else [])
  ++ (if trigger_fires TrigDenialOnset env m then [MsgBlocked (block_ptt_seconds m)] else [])
  ++ (if trigger_fires TrigRelease env m then [MsgTxOff] else [])
  ++ (if trigger_fires TrigBandChange env m
      then [MsgBandChange (bandOld m) (bandCode env);
            MsgBandBlocking (block_ptt_seconds m);
            MsgBandPattern (bandCode env) (band_pattern (bandCode env))]
      else []).

Definition ugl_lines (env : Env) : list DebugMsg :=
  if Bool.eqb (pin_level env uglasevanje) LOW then [MsgUglasevanje] else [].

(** Whether pass [k] of a run starts a denial: it is the first pass, or
    the pass before it did not deny. *)
Definition denial_starts (passes : list Pass) (k : nat) : bool :=
  match k with
  | O => true
  | S j =>
      match passes !! j with
      | Some q => negb (denied (p_env q) (p_before q))
      | None => true
      end
  end.

(** ** The loop of the earlier sketch ([sergej_basic.ino], lines 19-28) *)

Module BasicLoop.

(** The registers of [Basic], and the level last written to the PTT
    output with [digitalWrite]. *)
Record Sketch : Type := {
  regs : Basic.Machine;
  pttOutLevel : bool;
}.

Inductive Event : Type :=
| PttWrite (level : bool)      (* digitalWrite(pttOut, level) *)
| Print (e : Basic.Event).     (* the two Serial prints of bandControl *)

(** One pass of [loop]; [in_ptt] is what [digitalRead(pttInp)] returns and
    [PINC] the input register that [bandControl] reads.  The reading of
    the tuning input (line 21) is not used by the sketch. *)
Definition loop (in_ptt : bool) (PINC : Z) (s : Sketch) : Sketch * list Event :=
  if Bool.eqb in_ptt LOW
  then ({| regs := regs s; pttOutLevel := HIGH |}, [PttWrite HIGH])
  else
    let '(r, evs) := Basic.bandControl PINC (regs s) in
    ({| regs := r; pttOutLevel := LOW |}, PttWrite LOW :: map Print evs).

End BasicLoop.

(** The earlier sketch and the firmware hold the same band: the same
    stored code, and bits 2..5 of PORTD at the levels of the four band
    output pins. *)
Definition same_band (old : Basic.Machine) (m : Machine) : Prop :=
  Basic.bandOld old = bandOld m /\
  forall i : nat, (i < 4)%nat ->
    pin_out m !! pin_at bandOutPins i
    = Some (Z.testbit (Basic.PORTD old) (Z.of_nat i + 2)).

(** ** The stored configuration (lines 37-42, 112-139 and 214-239) *)

Module Config.

(** The size handed to [EEPROM.begin]. *)
Definition EEPROM_SIZE : nat := 512.

(** [EEPROM.get(addr, var)] and [EEPROM.put(addr, var)] of the ESP8266
    core, on the RAM copy of the sector ([mem]) and on the bytes of the
    variable: a copy of [sizeof(var)] bytes at [addr], and nothing at all
    when that range does not fit in the sector. *)
Definition eeprom_get (addr : nat) (current : list Z) (mem : list Z) : list Z :=
  if (addr + length current <=? length mem)%nat
  then take (length current) (drop addr mem)
  else current.

Definition eeprom_put (addr : nat) (data : list Z) (mem : list Z) : list Z :=
  if (addr + length data <=? length mem)%nat
  then take addr mem ++ data ++ drop (addr + length data) mem
  else mem.

(** The four bytes of an [int], least significant first, and back. *)
Definition int_bytes (x : Z) : list Z :=
  [x mod 256; (x / 256) mod 256; (x / 65536) mod 256; (x / 16777216) mod 256].

Definition int_of_bytes (bs : list Z) : Z :=
  match bs with
  | [b0; b1; b2; b3] =>
      let u := b0 + 256 * b1 + 65536 * b2 + 16777216 * b3 in
      if u <? 2 ^ 31 then u else u - 2 ^ 32
  | _ => 0
  end.

(** The text of a character array: the bytes before the first NUL. *)
Fixpoint c_str (s : list Z) : list Z :=
  match s with
  | [] => []
  | c :: rest => if c =? 0 then [] else c :: c_str rest
  end.

(** [strncpy(dst, src, n)] on an array [dst] of [n] bytes: the first [n]
    characters of the text of [src], padded with NUL up to [n] bytes; no
    NUL at all when the text has [n] characters or more. *)
Definition strncpy (n : nat) (src : list Z) : list Z :=
  let s := take n (c_str src) in
  s ++ replicate (n - length s) 0.

(** [arr[sizeof(arr) - 1] = '\0'] *)
Definition terminate (arr : list Z) : list Z :=
  <[(length arr - 1)%nat := 0]> arr.

(** The bytes of a string literal. *)
Definition literal (s : string) : list Z :=
  map (fun c => Z.of_nat (Ascii.nat_of_ascii c)) (String.list_ascii_of_string s).

(** The configuration globals (lines 37-42 and 91). *)
Record Settings : Type := {
  ssid : list Z;               (* char[32] *)
  password : list Z;           (* char[32] *)
  mqtt_server : list Z;        (* char[40] *)
  mqtt_port : Z;
  amplifier_name : list Z;     (* char[32] *)
  block_ptt_seconds : Z;
  bandBlockTimeMs : Z;
}.

(** Their initialisers. *)
Definition power_on : Settings :=
  {| ssid := replicate 32 0;
     password := replicate 32 0;
     mqtt_server := replicate 40 0;
     mqtt_port := 1883;
     amplifier_name := strncpy 32 (literal "AMP-01");
     block_ptt_seconds := 15;
     bandBlockTimeMs := 15000 |}.

(** The offsets of the six fields in the sector. *)
Definition OFF_SSID : nat := 0.
Definition OFF_PASSWORD : nat := 32.
Definition OFF_MQTT_SERVER : nat := 64.
Definition OFF_MQTT_PORT : nat := 104.
Definition OFF_AMPLIFIER_NAME : nat := 108.
Definition OFF_BLOCK_PTT_SECONDS : nat := 140.

(** [loadConfigFromEEPROM] (lines 112-131) on the globals [cur] and the
    sector [mem]. *)
Definition loadConfigFromEEPROM (mem : list Z) (cur : Settings) : Settings :=
  let ssid1 := eeprom_get OFF_SSID (ssid cur) mem in
  let password1 := eeprom_get OFF_PASSWORD (password cur) mem in
  let mqtt_server1 := eeprom_get OFF_MQTT_SERVER (mqtt_server cur) mem in
  let mqtt_port1 :=
    int_of_bytes (eeprom_get OFF_MQTT_PORT (int_bytes (mqtt_port cur)) mem) in
  let amplifier_name1 := eeprom_get OFF_AMPLIFIER_NAME (amplifier_name cur) mem in
  let block1 :=
    int_of_bytes
      (eeprom_get OFF_BLOCK_PTT_SECONDS (int_bytes (block_ptt_seconds cur)) mem) in
  let mqtt_port2 := if (mqtt_port1 <=? 0) || (65535 <? mqtt_port1) then 1883 else mqtt_port1 in
  let block2 := if (block1 <=? 0) || (600 <? block1) then 15 else block1 in
  {| ssid := terminate ssid1;
     password := terminate password1;
     mqtt_server := terminate mqtt_server1;
     mqtt_port := mqtt_port2;
     amplifier_name := terminate amplifier_name1;
     block_ptt_seconds := block2;
     bandBlockTimeMs := ulong (block2 * 1000) |}.

(** The arguments of the request to [/save]: the texts of the four string
    arguments and what [toInt()] returns for the two numbers. *)
Record Form : Type := {
  arg_ssid : list Z;
  arg_password : list Z;
  arg_mqtt_server : list Z;
  arg_mqtt_port : Z;
  arg_amplifier_name : list Z;
  arg_block_ptt_seconds : Z;
}.

(** [handleSave] (lines 214-233), up to [EEPROM.commit]: the globals it
    leaves and the sector it commits. *)
Definition handleSave (form : Form) (mem : list Z) : Settings * list Z :=
  let ssid1 := strncpy 32 (arg_ssid form) in
  let password1 := strncpy 32 (arg_password form) in
  let mqtt_server1 := strncpy 40 (arg_mqtt_server form) in
  let mqtt_port1 := arg_mqtt_port form in
  let amplifier_name1 := strncpy 32 (arg_amplifier_name form) in
  let block0 := arg_block_ptt_seconds form in
  let block1 := if (block0 <=? 0) || (600 <? block0) then 15 else block0 in
  let mem1 := eeprom_put OFF_SSID ssid1 mem in
  let mem2 := eeprom_put OFF_PASSWORD password1 mem1 in
  let mem3 := eeprom_put OFF_MQTT_SERVER mqtt_server1 mem2 in
  let mem4 := eeprom_put OFF_MQTT_PORT (int_bytes mqtt_port1) mem3 in
  let mem5 := eeprom_put OFF_AMPLIFIER_NAME amplifier_name1 mem4 in
  let mem6 := eeprom_put OFF_BLOCK_PTT_SECONDS (int_bytes block1) mem5 in
  ({| ssid := ssid1; password := password1; mqtt_server := mqtt_server1;
      mqtt_port := mqtt_port1; amplifier_name := amplifier_name1;
      block_ptt_seconds := block1; bandBlockTimeMs := ulong (block1 * 1000) |},
   mem6).

(** The globals after the restart that ends [handleSave]: the
    initialisers, then [loadConfigFromEEPROM] on the committed sector. *)
Definition save_and_reboot (form : Form) (mem : list Z) : Settings :=
  loadConfigFromEEPROM (snd (handleSave form mem)) power_on.

(** The limit that lines 128 and 221 put on the block time, and the one
    line 127 puts on the port. *)
Definition clamp_block (b : Z) : Z := if (b <=? 0) || (600 <? b) then 15 else b.
Definition clamp_port (p : Z) : Z := if (p <=? 0) || (65535 <? p) then 1883 else p.

End Config.

(** ** The link check at the end of [loop] (lines 616-630) and
    [reconnectMQTT] (lines 370-385) *)

Module Health.

(** What the end of one pass reads from the outside: the [millis()] of
    line 619, the state of the WiFi and of the MQTT client (the same at
    line 626 and inside [reconnectMQTT]), and what [client.connect]
    returns when it is called. *)
Record Readings : Type := {
  now : Z;
  wifi_connected : bool;     (* WiFi.status() == WL_CONNECTED *)
  ap_mode : bool;            (* WiFi.getMode() == WIFI_AP *)
  client_connected : bool;   (* client.connected() *)
  connect_ok : bool;         (* client.connect(clientId) *)
}.

Inductive Event : Type :=
| DebugWifiDisconnected    (* publishDebugMessage("WiFi disconnected.") *)
| SerialAttempting         (* "Attempting MQTT connection..." *)
| Connect                  (* client.connect(clientId) *)
| DebugMqttConnected       (* publishDebugMessage("MQTT connected.") *)
| PublishStatus            (* publishAmpStatus() *)
| SerialConnectFailed.     (* "MQTT connect failed, rc=..." *)

Definition is_connect (e : Event) : bool :=
  match e with Connect => true | _ => false end.

Definition reconnectMQTT (w : Readings) : list Event :=
  if negb (wifi_connected w) then []
  else if client_connected w then []
  else
    SerialAttempting :: Connect
      :: (if connect_ok w then [DebugMqttConnected; PublishStatus] else [SerialConnectFailed]).

(** Lines 618-629; the argument and the first result are the static
    [lastMQTTCheck]. *)
Definition loop_tail (w : Readings) (lastMQTTCheck : Z) : Z * list Event :=
  let lost :=
    if negb (wifi_connected w) && negb (ap_mode w) then [DebugWifiDisconnected] else [] in
  if negb (client_connected w) && (5000 <? ulong (now w - lastMQTTCheck))
  then (now w, lost ++ reconnectMQTT w)
  else (lastMQTTCheck, lost).

Record Pass : Type := {
  before : Z;              (* lastMQTTCheck when the pass starts *)
  readings : Readings;
  after : Z;               (* lastMQTTCheck when it ends *)
  events : list Event;
}.

Definition pass_of (w : Readings) (lastMQTTCheck : Z) : Pass :=
  {| before := lastMQTTCheck; readings := w;
     after := fst (loop_tail w lastMQTTCheck);
     events := snd (loop_tail w lastMQTTCheck) |}.

Fixpoint run (lastMQTTCheck : Z) (ws : list Readings) : list Pass :=
  match ws with
  | [] => []
  | w :: rest =>
      let p := pass_of w lastMQTTCheck in
      p :: run (after p) rest
  end.

(** Whether a pass calls [client.connect]. *)
Definition connects (p : Pass) : bool := existsb is_connect (events p).

(** A clock that does not run backwards and does not wrap: each reading
    is at least the one before, starting from [prev], and below 2^32. *)
Fixpoint clock_advances (prev : Z) (ts : list Z) : Prop :=
  match ts with
  | [] => True
  | t :: rest => prev <= t < 2 ^ ULONG_BITS /\ clock_advances t rest
  end.

End Health.

(** * Properties *)

(** ** Symbolic execution of the sketch's functions *)

Lemma bind_run {A B} (c : M A) (k : A -> M B) env rd m :
  bind c k env rd m =
  let r := c env rd m in
  let r' := k (value_of r) env (reads_of r) (machine_of r) in
  (value_of r', reads_of r', machine_of r', events_of r ++ events_of r').
Proof.
  unfold bind, value_of, reads_of, machine_of, events_of.
  destruct (c env rd m) as [[[a rd1] m1] ev1]. cbn.
  destruct (k a env rd1 m1) as [[[b rd2] m2] ev2]. reflexivity.
Qed.


Lemma publishDebugMessage_run msg env rd m :
  publishDebugMessage msg env rd m = (tt, rd, m, debug_out env m msg).
Proof.
  unfold publishDebugMessage, debug_out, debug_text, bind, gets, emit, client_connected, when, ret.
  destruct (debugEnabled m); cbn; [|reflexivity].
  destruct (mqtt_connected env && topic_debug_set m); reflexivity.
Qed.

Lemma readBandCode_run env rd m :
  readBandCode env rd m = (bandCode env, rd, m, []).
Proof. reflexivity. Qed.

Lemma publishAmpStatus_run env rd m :
  publishAmpStatus env rd m = (tt, status_reads env rd m, m, status_out env rd m).
Proof.
  unfold publishAmpStatus, status_out, status_text, status_reads, status_snapshot, status_link,
    bind, gets, emit, client_connected, millis, ret.
  destruct (mqtt_connected env), (topic_status_set m); cbn -[block_window_active]; try reflexivity.
  destruct (block_window_active _ _ _); reflexivity.
Qed.

Ltac mred :=
  lazy beta iota zeta delta
    [bind ret gets modify emit when millis digitalRead digitalWrite client_connected
     set_band set_bandOld set_lastBandChangeTime set_blockConfig set_pttState
     set_pttBlockReported set_debugEnabled set_debugDeadline set_topics set_pin_out
     band bandOld lastBandChangeTime bandBlockTimeMs block_ptt_seconds pttState
     pttBlockReported debugEnabled debugDeadline topic_status_set topic_debug_set pin_out
     machine_of events_of value_of reads_of fst snd
     debug_out status_out status_link for_range HIGH LOW];
  cbn [app negb Bool.eqb andb orb].

Ltac msimpl :=
  repeat first
    [ progress mred
    | rewrite publishDebugMessage_run
    | rewrite publishAmpStatus_run
    | rewrite readBandCode_run ].

Lemma applyBandOutputs_run b env rd m :
  applyBandOutputs b env rd m =
  (tt, rd, set_pin_out (band_pins b (pin_out m)) m,
   band_writes b ++ debug_out env m (MsgBandPattern b (band_pattern b))).
Proof.
  unfold applyBandOutputs.
  destruct m as [b0 bo0 last0 dur0 secs0 tx0 rep0 en0 dl0 ts0 td0 po0]. msimpl. reflexivity.
Qed.

Lemma bandControl_same env rd m :
  (bandCode env =? bandOld m) = true ->
  bandControl env rd m = (tt, rd, set_band (bandCode env) m, []).
Proof.
  intros E. unfold bandControl.
  destruct m as [b0 bo0 last0 dur0 secs0 tx0 rep0 en0 dl0 ts0 td0 po0]. msimpl.
  cbn [bandOld] in E. rewrite E. reflexivity.
Qed.

Lemma bandControl_changed env rd m :
  (bandCode env =? bandOld m) = false ->
  bandControl env rd m =
  let code := bandCode env in
  let m1 := set_bandOld code (set_band code m) in
  let m2 := set_lastBandChangeTime (clock env rd) m1 in
  let m3 := set_pin_out (band_pins code (pin_out m2)) m2 in
  (tt, status_reads env (S rd) m3, m3,
   debug_out env m (MsgBandChange (bandOld m) code)
   ++ debug_out env m (MsgBandBlocking (block_ptt_seconds m))
   ++ band_writes code
   ++ debug_out env m (MsgBandPattern code (band_pattern code))
   ++ status_out env (S rd) m3).
Proof.
  intros E. unfold bandControl.
  destruct m as [b0 bo0 last0 dur0 secs0 tx0 rep0 en0 dl0 ts0 td0 po0]. msimpl.
  cbn [bandOld] in E. rewrite E. msimpl.
  rewrite applyBandOutputs_run. msimpl. rewrite <- !app_assoc. reflexivity.
Qed.

Ltac tick_path env m :=
  unfold handleAmplifierLogic, pttPressed, blockActive, ugl_out, write_ptt;
  destruct m as [b0 bo0 last0 dur0 secs0 tx0 rep0 en0 dl0 ts0 td0 po0];
  msimpl;
  destruct (pin_level env pttInp) eqn:Hptt;
  msimpl; try discriminate;
  intros _ Hact; rewrite ?Hact; msimpl;
  destruct (pin_level env uglasevanje), tx0, rep0; msimpl.

Lemma logic_allowed env m :
  pttPressed env = true -> blockActive env m = false ->
  let m' := set_pttBlockReported false (set_pttState true (write_ptt HIGH m)) in
  let r := handleAmplifierLogic env O m in
  machine_of r = m' /\
  events_of r =
    (if pttState m then [] else debug_out env m MsgTxOn)
    ++ [PinWrite pttOut HIGH]
    ++ (if pttState m then [] else status_out env 1 m')
    ++ ugl_out env m.
Proof.
  tick_path env m; rewrite <- ?app_assoc, ?app_nil_r; split; reflexivity.
Qed.

Lemma logic_denied env m :
  pttPressed env = true -> blockActive env m = true ->
  let m' := set_pttState false (write_ptt LOW (set_pttBlockReported true m)) in
  let r := handleAmplifierLogic env O m in
  machine_of r = m' /\
  events_of r =
    (if pttBlockReported m then [] else debug_out env m (MsgBlocked (block_ptt_seconds m)))
    ++ [PinWrite pttOut LOW]
    ++ (if pttState m then status_out env 1 m' else [])
    ++ ugl_out env m.
Proof.
  tick_path env m; rewrite <- ?app_assoc, ?app_nil_r; split; reflexivity.
Qed.

Lemma logic_released env m :
  pttPressed env = false ->
  let m1 := set_pttBlockReported false (set_pttState false (write_ptt LOW m)) in
  let rb := bandControl env 1%nat m1 in
  let r := handleAmplifierLogic env O m in
  machine_of r = machine_of rb /\
  events_of r =
    (if pttState m then debug_out env m MsgTxOff else [])
    ++ [PinWrite pttOut LOW]
    ++ events_of rb
    ++ (if pttState m then status_out env (reads_of rb) (machine_of rb) else [])
    ++ ugl_out env m.
Proof.
  unfold handleAmplifierLogic, pttPressed, ugl_out, write_ptt.
  destruct m as [b0 bo0 last0 dur0 secs0 tx0 rep0 en0 dl0 ts0 td0 po0].
  msimpl. destruct (pin_level env pttInp) eqn:Hptt; msimpl; try discriminate. intros _.
  destruct (pin_level env uglasevanje), tx0; msimpl.
  all: destruct (bandCode env =? bo0) eqn:Hband;
    [ rewrite !bandControl_same by exact Hband
    | rewrite !bandControl_changed by exact Hband ]; msimpl.
  all: repeat (rewrite <- app_assoc || rewrite <- app_comm_cons || rewrite app_nil_r).
  all: split; reflexivity.
Qed.

(** ** The band table *)

Lemma bandCode_range env : 0 <= bandCode env <= 15.
Proof.
  unfold bandCode. cbn -[Z.land].
  match goal with |- 0 <= Z.land ?v Mask <= 15 => generalize v end.
  intros v. change Mask with (Z.ones 4). rewrite Z.land_ones by lia.
  pose proof (Z.mod_pos_bound v (2 ^ 4)). lia.
Qed.

(** [(pattern & (1 << i)) ? HIGH : LOW] is bit [i] of [pattern]. *)
Lemma mask_test_testbit (p : Z) (i : nat) :
  (if Z.land p (Z.shiftl 1 (Z.of_nat i)) =? 0 then LOW else HIGH)
  = Z.testbit p (Z.of_nat i).
Proof.
  rewrite Z.shiftl_1_l.
  assert (Hi : 0 <= Z.of_nat i) by lia.
  destruct (Z.testbit p (Z.of_nat i)) eqn:Hbit.
  - destruct (Z.eqb_spec (Z.land p (2 ^ Z.of_nat i)) 0) as [Hz|]; [|reflexivity].
    exfalso.
    assert (Hc : Z.testbit (Z.land p (2 ^ Z.of_nat i)) (Z.of_nat i) = true).
    { rewrite Z.land_spec, Hbit, Z.pow2_bits_true by lia. reflexivity. }
    rewrite Hz, Z.bits_0 in Hc. discriminate.
  - assert (Hz : Z.land p (2 ^ Z.of_nat i) = 0).
    { apply Z.bits_inj'. intros n Hn.
      rewrite Z.land_spec, Z.bits_0, Z.pow2_bits_eqb by lia.
      destruct (Z.eqb_spec (Z.of_nat i) n) as [<-|]; [rewrite Hbit|];
        auto using andb_false_r. }
    rewrite Hz. reflexivity.
Qed.

Lemma band_level_testbit (b : Z) (i : nat) :
  band_level b i = Z.testbit (band_pattern b) (Z.of_nat i).
Proof. apply mask_test_testbit. Qed.

Lemma band_pins_lookup (b : Z) (po : gmap Z bool) (i : nat) :
  (i < 4)%nat ->
  band_pins b po !! pin_at bandOutPins i = Some (band_level b i).
Proof.
  intros Hi. unfold band_pins.
  destruct i as [|[|[|[|i]]]]; [..|lia].
  all: vm_compute pin_at; rewrite ?lookup_insert_ne by done; apply lookup_insert_eq.
Qed.

Lemma band_pins_other (b : Z) (po : gmap Z bool) (pin : Z) :
  pin < 8 \/ 11 < pin ->
  band_pins b po !! pin = po !! pin.
Proof.
  intros Hpin. unfold band_pins. rewrite !lookup_insert_ne by lia. reflexivity.
Qed.

Lemma code_cases (b : Z) :
  0 <= b <= 15 ->
  b = 0 \/ b = 1 \/ b = 2 \/ b = 3 \/ b = 4 \/ b = 5 \/ b = 6 \/ b = 7 \/
  b = 8 \/ b = 9 \/ b = 10 \/ b = 11 \/ b = 12 \/ b = 13 \/ b = 14 \/ b = 15.
Proof. lia. Qed.

Lemma band_pattern_spec (b : Z) :
  0 <= b <= 15 -> band_pattern b = spec_output_pattern b.
Proof.
  intros Hb. apply code_cases in Hb.
  repeat (destruct Hb as [-> | Hb]; [vm_compute; reflexivity|]).
  subst b. vm_compute. reflexivity.
Qed.

Lemma pin_writes_app (l1 l2 : list Event) :
  pin_writes (l1 ++ l2) = pin_writes l1 ++ pin_writes l2.
Proof. apply omap_app. Qed.

Lemma pin_writes_debug env m msg : pin_writes (debug_out env m msg) = [].
Proof.
  unfold debug_out, debug_text.
  destruct (debugEnabled m), (mqtt_connected env && topic_debug_set m); reflexivity.
Qed.

Lemma pin_writes_status env rd m : pin_writes (status_out env rd m) = [].
Proof. unfold status_out, status_text. destruct (status_link env m); reflexivity. Qed.

Lemma pin_writes_ugl env m : pin_writes (ugl_out env m) = [].
Proof.
  unfold ugl_out. destruct (Bool.eqb _ _); [apply pin_writes_debug | reflexivity].
Qed.

Lemma pin_writes_band (b : Z) :
  pin_writes (band_writes b) =
  [(8, band_level b 0); (9, band_level b 1); (10, band_level b 2); (11, band_level b 3)].
Proof. reflexivity. Qed.

(** C5: for every band code in [0,15] the pattern chosen by
    [applyBandOutputs] is the one of the table of section 4.2 (15 -> 1111,
    14 -> 0000, 13 -> 0001, 12 -> 0010, 11 -> 0011, 10 -> 0100, 9 -> 0101,
    8 -> 0110, 7 -> 0111, 6 -> 1000, 5 -> 1001, and 0..4 -> 1111 like 15),
    and bit [i] of the pattern is the level written to, and left on, output
    pin [i]. *)
Theorem C5_output_mapper_table (b : Z) (env : Env) (rd : nat) (m : Machine) :
  0 <= b <= 15 ->
  let r := applyBandOutputs b env rd m in
  band_pattern b = spec_output_pattern b /\
  map band_pattern [0; 1; 2; 3; 4; 5; 6; 7; 8; 9; 10; 11; 12; 13; 14; 15]
    = [15; 15; 15; 15; 15; 9; 8; 7; 6; 5; 4; 3; 2; 1; 0; 15] /\
  (forall i : nat, (i < 4)%nat ->
     pin_out (machine_of r) !! pin_at bandOutPins i
     = Some (Z.testbit (spec_output_pattern b) (Z.of_nat i))) /\
  pin_writes (events_of r)
  = map (fun i : nat => (pin_at bandOutPins i, Z.testbit (spec_output_pattern b) (Z.of_nat i)))
      [0; 1; 2; 3]%nat.
Proof.
  intros Hb r. subst r. rewrite applyBandOutputs_run.
  pose proof (band_pattern_spec b Hb) as Hspec.
  split; [exact Hspec|]. split; [reflexivity|]. split.
  - intros i Hi. cbn [machine_of fst snd].
    destruct m as [b0 bo0 last0 dur0 secs0 tx0 rep0 en0 dl0 ts0 td0 po0].
    cbn [set_pin_out pin_out].
    rewrite band_pins_lookup by exact Hi.
    rewrite band_level_testbit, Hspec. reflexivity.
  - cbn [events_of snd]. rewrite pin_writes_app, pin_writes_debug, app_nil_r, pin_writes_band.
    rewrite !band_level_testbit, Hspec. reflexivity.
Qed.

(** Witness of C5: band code 7, the boot scenario of the specification. *)
Lemma C5_output_mapper_table_witness :
  let r := applyBandOutputs 7 (boot_world false) O power_on in
  band_pattern 7 = spec_output_pattern 7 /\
  map band_pattern [0; 1; 2; 3; 4; 5; 6; 7; 8; 9; 10; 11; 12; 13; 14; 15]
    = [15; 15; 15; 15; 15; 9; 8; 7; 6; 5; 4; 3; 2; 1; 0; 15] /\
  (forall i : nat, (i < 4)%nat ->
     pin_out (machine_of r) !! pin_at bandOutPins i
     = Some (Z.testbit (spec_output_pattern 7) (Z.of_nat i))) /\
  pin_writes (events_of r)
  = map (fun i : nat => (pin_at bandOutPins i, Z.testbit (spec_output_pattern 7) (Z.of_nat i)))
      [0; 1; 2; 3]%nat.
Proof. apply (C5_output_mapper_table 7 (boot_world false) O power_on). lia. Defined.

(** ** The earlier sketch *)

Lemma switch_PORTD_bits (b portd : Z) (i : nat) :
  0 <= b <= 15 -> (i < 4)%nat ->
  Z.testbit (Basic.switch_PORTD b portd) (Z.of_nat i + 2)
  = Z.testbit (band_pattern b) (Z.of_nat i).
Proof.
  intros Hb Hi. apply code_cases in Hb.
  destruct i as [|[|[|[|i]]]]; [..|lia].
  all: repeat (destruct Hb as [-> | Hb]);  subst;
    cbn [Basic.switch_PORTD band_pattern];
    rewrite ?Z.lor_spec, ?Z.land_spec;
    cbn; rewrite ?andb_false_r, ?orb_true_r, ?orb_false_r; reflexivity.
Qed.

(** C9: on a band change to any code [b] in [0,15], the earlier sketch
    leaves in bits 2..5 of PORTD the levels that [applyBandOutputs b] of
    the current firmware leaves on the output pins 0..3 (PORTD bit [i+2]
    for output [i]). *)
Theorem C9_variants_same_mapping (b PINC : Z) (old : Basic.Machine)
    (env : Env) (rd : nat) (m : Machine) :
  0 <= b <= 15 ->
  Z.land PINC Mask = b ->
  Basic.bandOld old <> b ->
  let old' := fst (Basic.bandControl PINC old) in
  let r := applyBandOutputs b env rd m in
  Basic.bandOld old' = b /\
  forall i : nat, (i < 4)%nat ->
    pin_out (machine_of r) !! pin_at bandOutPins i
    = Some (Z.testbit (Basic.PORTD old') (Z.of_nat i + 2)).
Proof.
  intros Hb Hpinc Hold old' r. subst old' r.
  unfold Basic.bandControl. rewrite Hpinc.
  destruct (Z.eqb_spec b (Basic.bandOld old)) as [Heq|_]; [congruence|].
  cbn [fst Basic.bandOld Basic.PORTD]. split; [reflexivity|].
  intros i Hi. rewrite applyBandOutputs_run. cbn [machine_of fst snd].
  destruct m as [b0 bo0 last0 dur0 secs0 tx0 rep0 en0 dl0 ts0 td0 po0].
  cbn [set_pin_out pin_out].
  rewrite band_pins_lookup by exact Hi.
  rewrite band_level_testbit, switch_PORTD_bits by assumption. reflexivity.
Qed.

(** Witness of C9: a change from band code 7 to band code 10, with the
    other bits of PINC and PORTD set. *)
Lemma C9_variants_same_mapping_witness :
  let old := {| Basic.band := 7; Basic.bandOld := 7; Basic.PORTD := 255 |} in
  let old' := fst (Basic.bandControl 250 old) in
  let r := applyBandOutputs 10 (boot_world false) O power_on in
  Basic.bandOld old' = 10 /\
  forall i : nat, (i < 4)%nat ->
    pin_out (machine_of r) !! pin_at bandOutPins i
    = Some (Z.testbit (Basic.PORTD old') (Z.of_nat i + 2)).
Proof.
  apply (C9_variants_same_mapping 10 250
           {| Basic.band := 7; Basic.bandOld := 7; Basic.PORTD := 255 |}
           (boot_world false) O power_on).
  - lia.
  - reflexivity.
  - cbn. lia.
Defined.

(** ** The four paths of [handleAmplifierLogic] *)

(** The globals after the PTT part of the released path, before
    [bandControl] runs. *)
Lemma released_bandOld (m : Machine) :
  bandOld (set_pttBlockReported false (set_pttState false (write_ptt LOW m))) = bandOld m.
Proof. reflexivity. Qed.

Lemma logic_released_same env m :
  pttPressed env = false -> bandChanged env m = false ->
  let m1 := set_pttBlockReported false (set_pttState false (write_ptt LOW m)) in
  let m' := set_band (bandCode env) m1 in
  let r := handleAmplifierLogic env O m in
  machine_of r = m' /\
  events_of r =
    (if pttState m then debug_out env m MsgTxOff else [])
    ++ [PinWrite pttOut LOW]
    ++ (if pttState m then status_out env 1 m' else [])
    ++ ugl_out env m.
Proof.
  intros Hrel Hsame m1 m' r.
  apply negb_false_iff in Hsame.
  destruct (logic_released env m Hrel) as [Hm Hev]. fold m1 in Hm, Hev. fold r in Hm, Hev.
  rewrite bandControl_same in Hm, Hev by exact Hsame.
  split; [exact Hm|]. rewrite Hev. reflexivity.
Qed.

Lemma logic_released_changed env m :
  pttPressed env = false -> bandChanged env m = true ->
  let code := bandCode env in
  let m1 := set_pttBlockReported false (set_pttState false (write_ptt LOW m)) in
  let m2 := set_lastBandChangeTime (clock env 1%nat) (set_bandOld code (set_band code m1)) in
  let m' := set_pin_out (band_pins code (pin_out m2)) m2 in
  let r := handleAmplifierLogic env O m in
  machine_of r = m' /\
  events_of r =
    (if pttState m then debug_out env m MsgTxOff else [])
    ++ [PinWrite pttOut LOW]
    ++ (debug_out env m (MsgBandChange (bandOld m) code)
        ++ debug_out env m (MsgBandBlocking (block_ptt_seconds m))
        ++ band_writes code
        ++ debug_out env m (MsgBandPattern code (band_pattern code))
        ++ status_out env 2 m')
    ++ (if pttState m then status_out env (status_reads env 2 m') m' else [])
    ++ ugl_out env m.
Proof.
  intros Hrel Hchg code m1 m2 m' r.
  apply negb_true_iff in Hchg.
  destruct (logic_released env m Hrel) as [Hm Hev]. fold m1 in Hm, Hev. fold r in Hm, Hev.
  rewrite bandControl_changed in Hm, Hev by exact Hchg.
  split; [exact Hm|]. rewrite Hev. reflexivity.
Qed.

(** ** One pass of [loop] *)

Lemma debugTimeout_run env rd m :
  debugTimeout env rd m =
  (tt, (if debugEnabled m && negb (debugDeadline m =? 0) then S rd else rd),
   (if timed_out env rd m then set_debugDeadline 0 (set_debugEnabled false m) else m), []).
Proof.
  unfold debugTimeout, timed_out.
  destruct m as [b0 bo0 last0 dur0 secs0 tx0 rep0 en0 dl0 ts0 td0 po0]. msimpl.
  destruct en0; msimpl; [|reflexivity].
  destruct (dl0 =? 0); msimpl; [reflexivity|].
  destruct (dl0 <=? clock env rd); reflexivity.
Qed.

Lemma pass_events env m : p_events (pass_of env m) = p_logic_events (pass_of env m).
Proof.
  unfold pass_of, loop. cbn [p_events p_logic_events].
  rewrite bind_run. cbv zeta. rewrite debugTimeout_run.
  cbn [events_of snd]. apply app_nil_r.
Qed.

Lemma pass_after env m :
  let r := handleAmplifierLogic env O m in
  p_after (pass_of env m)
  = if timed_out env (reads_of r) (machine_of r)
    then set_debugDeadline 0 (set_debugEnabled false (machine_of r)) else machine_of r.
Proof.
  unfold pass_of, loop. cbn [p_after].
  rewrite bind_run. cbv zeta. rewrite debugTimeout_run. reflexivity.
Qed.

(** [debugTimeout] touches the two debug globals only. *)
Lemma pass_after_fields env m :
  let p := pass_of env m in
  pttState (p_after p) = pttState (p_logic p)
  /\ pttBlockReported (p_after p) = pttBlockReported (p_logic p)
  /\ band (p_after p) = band (p_logic p)
  /\ bandOld (p_after p) = bandOld (p_logic p)
  /\ lastBandChangeTime (p_after p) = lastBandChangeTime (p_logic p)
  /\ bandBlockTimeMs (p_after p) = bandBlockTimeMs (p_logic p)
  /\ pin_out (p_after p) = pin_out (p_logic p)
  /\ block_ptt_seconds (p_after p) = block_ptt_seconds (p_logic p)
  /\ topic_status_set (p_after p) = topic_status_set (p_logic p)
  /\ topic_debug_set (p_after p) = topic_debug_set (p_logic p).
Proof.
  cbv zeta. rewrite pass_after. cbv zeta. cbn [p_logic pass_of].
  destruct (timed_out _ _ _); repeat split; reflexivity.
Qed.

Lemma pass_after_interlock env m :
  let p := pass_of env m in
  interlock_state (p_after p) = interlock_state (p_logic p).
Proof.
  cbv zeta. unfold interlock_state.
  destruct (pass_after_fields env m) as (-> & -> & -> & -> & -> & -> & _).
  reflexivity.
Qed.

Lemma run_Forall (P : Pass -> Prop) :
  (forall env m, P (pass_of env m)) ->
  forall m envs, Forall P (run m envs).
Proof.
  intros HP m envs. revert m.
  induction envs as [|env rest IH]; intros m; cbn [run]; constructor; auto.
Qed.

Ltac four_paths env m :=
  let Hpress := fresh "Hpress" in
  let Hact := fresh "Hact" in
  let Hchg := fresh "Hchg" in
  let Hm := fresh "Hm" in
  let Hev := fresh "Hev" in
  destruct (pttPressed env) eqn:Hpress;
  [ destruct (blockActive env m) eqn:Hact;
    [ destruct (logic_denied env m Hpress Hact) as [Hm Hev]
    | destruct (logic_allowed env m Hpress Hact) as [Hm Hev] ]
  | destruct (bandChanged env m) eqn:Hchg;
    [ destruct (logic_released_changed env m Hpress Hchg) as [Hm Hev]
    | destruct (logic_released_same env m Hpress Hchg) as [Hm Hev] ] ];
  cbv zeta in Hm, Hev.

Lemma logic_pttState env m :
  pttState (machine_of (handleAmplifierLogic env O m))
  = pttPressed env && negb (blockActive env m).
Proof. four_paths env m; rewrite Hm; reflexivity. Qed.

Lemma logic_latch env m :
  pttBlockReported (machine_of (handleAmplifierLogic env O m)) = denied env m.
Proof. unfold denied. four_paths env m; rewrite Hm; reflexivity. Qed.

Lemma logic_pttOut env m :
  pin_out (machine_of (handleAmplifierLogic env O m)) !! pttOut
  = Some (pttPressed env && negb (blockActive env m)).
Proof.
  four_paths env m; rewrite Hm; cbn [andb negb];
    destruct m as [b0 bo0 last0 dur0 secs0 tx0 rep0 en0 dl0 ts0 td0 po0];
    unfold write_ptt; mred.
  3: rewrite band_pins_other by (unfold pttOut; lia).
  all: apply lookup_insert_eq.
Qed.

(** The globals [handleAmplifierLogic] never writes. *)
Lemma logic_config env m :
  let m' := machine_of (handleAmplifierLogic env O m) in
  debugEnabled m' = debugEnabled m /\ debugDeadline m' = debugDeadline m /\
  bandBlockTimeMs m' = bandBlockTimeMs m /\ block_ptt_seconds m' = block_ptt_seconds m /\
  topic_status_set m' = topic_status_set m /\ topic_debug_set m' = topic_debug_set m.
Proof. cbv zeta. four_paths env m; rewrite Hm; repeat split; reflexivity. Qed.

(** The writes to the PTT output pin during the pass. *)
Lemma logic_ptt_writes env m (level : bool) :
  In (pttOut, level) (pin_writes (events_of (handleAmplifierLogic env O m))) ->
  level = pttPressed env && negb (blockActive env m).
Proof.
  four_paths env m; rewrite Hev;
    repeat (rewrite pin_writes_app || rewrite pin_writes_debug || rewrite pin_writes_status
            || rewrite pin_writes_ugl || rewrite pin_writes_band);
    destruct (pttState m), (pttBlockReported m);
    repeat (rewrite pin_writes_debug || rewrite pin_writes_status);
    cbn [app pin_writes omap andb negb In]; unfold pttOut;
    intros Hin; repeat (destruct Hin as [Hin|Hin]; [inversion Hin; try reflexivity; try lia|]);
    try contradiction.
Qed.

(** ** The interlock *)

(** What one pass does to the PTT output and to [pttState], from any
    globals and in any outside world. *)
Lemma pass_ptt env m :
  let p := pass_of env m in
  let allowed := pttPressed env && negb (blockActive env m) in
  pttState (p_logic p) = allowed /\
  pttState (p_after p) = allowed /\
  pin_out (p_after p) !! pttOut = Some allowed /\
  (forall level, In (pttOut, level) (pin_writes (p_events p)) -> level = allowed).
Proof.
  cbv zeta.
  destruct (pass_after_fields env m) as (Hptt & _ & _ & _ & _ & _ & Hpins & _).
  rewrite pass_events, Hpins, Hptt. cbn [p_logic p_logic_events pass_of].
  rewrite logic_pttState, logic_pttOut.
  repeat split. apply logic_ptt_writes.
Qed.

(** C1: in every run of [loop], from any globals and for every sequence
    of outside worlds, a pass during which the block window is active
    ends in RX with the PTT output LOW and never writes HIGH to it; and a
    pass that ends in TX, or writes HIGH to the PTT output, is one whose
    PTT input is pressed while the block window is not active. *)
Theorem C1_no_tx_while_blocked (m : Machine) (envs : list Env) :
  Forall
    (fun p : Pass =>
       (blockActive (p_env p) (p_before p) = true ->
          pttState (p_logic p) = false /\
          pttState (p_after p) = false /\
          pin_out (p_after p) !! pttOut = Some LOW /\
          ~ In (pttOut, HIGH) (pin_writes (p_events p))) /\
       (pttState (p_after p) = true \/ In (pttOut, HIGH) (pin_writes (p_events p)) ->
          pttPressed (p_env p) = true /\ blockActive (p_env p) (p_before p) = false))
    (run m envs).
Proof.
  apply run_Forall. clear m envs. intros env m.
  destruct (pass_ptt env m) as (Hlogic & Hafter & Hpin & Hwrites).
  cbn [p_env p_before pass_of] in *.
  split.
  - intros Hact. rewrite Hact, andb_false_r in *.
    repeat split; try assumption.
    intros Hin. apply Hwrites in Hin. discriminate.
  - intros [Htx | Hin].
    + rewrite Hafter in Htx. apply andb_true_iff in Htx. destruct Htx as [Hp Ha].
      apply negb_true_iff in Ha. auto.
    + apply Hwrites in Hin. unfold HIGH in Hin. symmetry in Hin.
      apply andb_true_iff in Hin. destruct Hin as [Hp Ha].
      apply negb_true_iff in Ha. auto.
Qed.

Lemma band_pin_not_ptt (i : nat) : (i < 4)%nat -> pin_at bandOutPins i <> pttOut.
Proof.
  intros Hi. destruct i as [|[|[|[|i]]]]; [..|lia]; vm_compute; discriminate.
Qed.

(** The pin writes of a pass whose PTT input is pressed: one, to the PTT
    output. *)
Lemma pressed_pin_writes env m :
  pttPressed env = true ->
  pin_writes (events_of (handleAmplifierLogic env O m))
  = [(pttOut, negb (blockActive env m))].
Proof.
  intros Hpress.
  destruct (blockActive env m) eqn:Hact;
    [ destruct (logic_denied env m Hpress Hact) as [_ Hev]
    | destruct (logic_allowed env m Hpress Hact) as [_ Hev] ];
    cbv zeta in Hev; rewrite Hev;
    rewrite !pin_writes_app, pin_writes_ugl;
    destruct (pttState m), (pttBlockReported m);
    rewrite ?pin_writes_debug, ?pin_writes_status; reflexivity.
Qed.

(** C2: a pass of [loop] whose PTT input is pressed leaves the stored band
    code ([band], [bandOld]), the start of the block window
    ([lastBandChangeTime]) and the four band output pins as they were, and
    writes to none of these pins, whatever the band input pins read. *)
Theorem C2_band_frozen_while_pressed (env : Env) (m : Machine) :
  pttPressed env = true ->
  let p := pass_of env m in
  band (p_after p) = band m /\
  bandOld (p_after p) = bandOld m /\
  lastBandChangeTime (p_after p) = lastBandChangeTime m /\
  (forall i : nat, (i < 4)%nat ->
     pin_out (p_after p) !! pin_at bandOutPins i = pin_out m !! pin_at bandOutPins i) /\
  (forall (i : nat) (level : bool), (i < 4)%nat ->
     ~ In (pin_at bandOutPins i, level) (pin_writes (p_events p))).
Proof.
  intros Hpress p. subst p.
  destruct (pass_after_fields env m) as (_ & _ & Hband & HbandOld & Hlast & _ & Hpins & _).
  rewrite Hband, HbandOld, Hlast, Hpins, pass_events.
  cbn [p_logic p_logic_events pass_of].
  rewrite pressed_pin_writes by exact Hpress.
  assert (Hm : exists level reported,
             machine_of (handleAmplifierLogic env O m)
             = set_pttBlockReported reported (set_pttState level (write_ptt level m))).
  { destruct (blockActive env m) eqn:Hact.
    - destruct (logic_denied env m Hpress Hact) as [Hm _]. cbv zeta in Hm.
      exists false, true. rewrite Hm. reflexivity.
    - destruct (logic_allowed env m Hpress Hact) as [Hm _]. cbv zeta in Hm.
      exists true, false. exact Hm. }
  destruct Hm as (level & reported & Hm). rewrite Hm.
  repeat split.
  - intros i Hi. cbn. apply lookup_insert_ne.
    intros Heq. symmetry in Heq. revert Heq. apply band_pin_not_ptt, Hi.
  - intros i lvl Hi [Hin | []]. injection Hin as Heq _.
    symmetry in Heq. revert Heq. apply band_pin_not_ptt, Hi.
Qed.

(** Witness of C2: after the boot of the specification's scenario (band
    code 7), a pass with the PTT input pressed while the band pins read
    (0,0,1,0). *)
Lemma C2_band_frozen_while_pressed_witness :
  let m := booted (boot_world false) in
  let p := pass_of (world 21000 false LOW HIGH LOW LOW HIGH LOW) m in
  band (p_after p) = band m /\
  bandOld (p_after p) = bandOld m /\
  lastBandChangeTime (p_after p) = lastBandChangeTime m /\
  (forall i : nat, (i < 4)%nat ->
     pin_out (p_after p) !! pin_at bandOutPins i = pin_out m !! pin_at bandOutPins i) /\
  (forall (i : nat) (level : bool), (i < 4)%nat ->
     ~ In (pin_at bandOutPins i, level) (pin_writes (p_events p))).
Proof.
  apply (C2_band_frozen_while_pressed
           (world 21000 false LOW HIGH LOW LOW HIGH LOW) (booted (boot_world false))).
  reflexivity.
Defined.

(** ** Status snapshots *)

Lemma status_snapshots_app (l1 l2 : list Event) :
  status_snapshots (l1 ++ l2) = status_snapshots l1 ++ status_snapshots l2.
Proof. apply omap_app. Qed.

Lemma status_snapshots_debug env m msg : status_snapshots (debug_out env m msg) = [].
Proof.
  unfold debug_out, debug_text.
  destruct (debugEnabled m), (mqtt_connected env && topic_debug_set m); reflexivity.
Qed.

Lemma status_snapshots_ugl env m : status_snapshots (ugl_out env m) = [].
Proof.
  unfold ugl_out. destruct (Bool.eqb _ _); [apply status_snapshots_debug | reflexivity].
Qed.

Lemma status_snapshots_status env rd m :
  status_snapshots (status_out env rd m)
  = if status_link env m then [status_snapshot env rd m] else [].
Proof. unfold status_out, status_text. destruct (status_link env m); reflexivity. Qed.

Lemma status_snapshots_band (b : Z) : status_snapshots (band_writes b) = [].
Proof. reflexivity. Qed.

(** The number of snapshots [handleAmplifierLogic] publishes. *)
Lemma logic_status_count env m :
  let r := handleAmplifierLogic env O m in
  length (status_snapshots (events_of r))
  = if status_link env m
    then (Nat.b2n (negb (Bool.eqb (pttState (machine_of r)) (pttState m)))
          + Nat.b2n (negb (pttPressed env) && bandChanged env m))%nat
    else 0%nat.
Proof.
  cbv zeta. rewrite logic_pttState.
  four_paths env m; rewrite Hev;
    repeat (rewrite status_snapshots_app || rewrite status_snapshots_ugl
            || rewrite status_snapshots_band);
    destruct (pttState m), (pttBlockReported m);
    repeat (rewrite status_snapshots_debug || rewrite status_snapshots_status);
    unfold status_link; cbn [topic_status_set set_pttState set_pttBlockReported write_ptt
      set_pin_out set_band set_bandOld set_lastBandChangeTime];
    destruct (mqtt_connected env && topic_status_set m); reflexivity.
Qed.

(** C6 as stated fails when the MQTT client is not connected: the pass
    below takes [pttState] from RX to TX and publishes no snapshot. *)
Lemma C6_counterexample_offline :
  let p := pass_of (world 21000 false LOW HIGH HIGH HIGH HIGH LOW)
             (booted (boot_world false)) in
  pttState (p_before p) = false /\
  pttState (p_after p) = true /\
  status_snapshots (p_events p) = [].
Proof. vm_compute. repeat split. Qed.

(** C6, amended: [publishAmpStatus] publishes only while the MQTT client
    is connected and the status topic is set.  On a pass where it is, the
    snapshots number one if [pttState] at the end of the pass differs from
    its value at the start, plus one if the pass detects a band change
    (PTT input released, new band code different from [bandOld]); on a
    pass where it is not, there is none.  So a pass with neither a
    transition nor a band change publishes none in either case. *)
Theorem C6_status_snapshot_count (env : Env) (m : Machine) :
  let p := pass_of env m in
  let transition := negb (Bool.eqb (pttState (p_after p)) (pttState m)) in
  let band_change := negb (pttPressed env) && bandChanged env m in
  length (status_snapshots (p_events p))
  = if mqtt_connected env && topic_status_set m
    then (Nat.b2n transition + Nat.b2n band_change)%nat
    else 0%nat.
Proof.
  cbv zeta.
  destruct (pass_after_fields env m) as (Hptt & _).
  rewrite Hptt, pass_events. cbn [p_logic p_logic_events pass_of].
  apply logic_status_count.
Qed.

(** ** Debug lines *)

Lemma debug_lines_app (l1 l2 : list Event) :
  debug_lines (l1 ++ l2) = debug_lines l1 ++ debug_lines l2.
Proof. apply omap_app. Qed.

Lemma debug_lines_debug env m msg :
  debug_lines (debug_out env m msg) = if debugEnabled m then [msg] else [].
Proof.
  unfold debug_out, debug_text.
  destruct (debugEnabled m), (mqtt_connected env && topic_debug_set m); reflexivity.
Qed.

Lemma debug_lines_status env rd m : debug_lines (status_out env rd m) = [].
Proof. unfold status_out, status_text. destruct (status_link env m); reflexivity. Qed.

Lemma debug_lines_ugl env m :
  debug_lines (ugl_out env m) = if debugEnabled m then ugl_lines env else [].
Proof.
  unfold ugl_out, ugl_lines. destruct (Bool.eqb _ _).
  - apply debug_lines_debug.
  - destruct (debugEnabled m); reflexivity.
Qed.

Lemma debug_lines_band (b : Z) : debug_lines (band_writes b) = [].
Proof. reflexivity. Qed.

(** The debug lines of [handleAmplifierLogic]. *)
Lemma logic_debug_lines env m :
  debug_lines (events_of (handleAmplifierLogic env O m))
  = if debugEnabled m then trigger_lines env m ++ ugl_lines env else [].
Proof.
  unfold trigger_lines, trigger_fires, denied.
  four_paths env m; rewrite Hev;
    repeat (rewrite debug_lines_app || rewrite debug_lines_ugl || rewrite debug_lines_band);
    destruct (pttState m), (pttBlockReported m);
    repeat (rewrite debug_lines_debug || rewrite debug_lines_status);
    destruct (debugEnabled m); reflexivity.
Qed.

(** Every line of [trigger_lines] belongs to an occasion that the pass
    meets. *)
Lemma trigger_lines_fire env m :
  Forall (fun msg => exists t, trigger_of msg = Some t /\ trigger_fires t env m = true)
    (trigger_lines env m).
Proof.
  unfold trigger_lines.
  repeat match goal with
         | |- context [if trigger_fires ?t env m then _ else _] =>
             destruct (trigger_fires t env m) eqn:?
         end;
    repeat (apply Forall_app; split); repeat constructor; cbn [trigger_of]; eauto.
Qed.

(** ** Boot *)

(** The globals after [setup()]. *)
Lemma booted_fields (env0 : Env) :
  let m := booted env0 in
  let stored := eeprom_block_seconds env0 in
  let secs := if (stored <=? 0) || (600 <? stored) then 15 else stored in
  band m = bandCode env0 /\ bandOld m = bandCode env0 /\
  lastBandChangeTime m = 0 /\
  block_ptt_seconds m = secs /\ bandBlockTimeMs m = ulong (secs * 1000) /\
  pttState m = false /\ pttBlockReported m = false /\
  debugEnabled m = true /\ debugDeadline m = ulong (60000 + clock env0 O) /\
  topic_status_set m = wifi_joins env0 /\ topic_debug_set m = wifi_joins env0.
Proof.
  cbv zeta. unfold booted, setup, loadConfigFromEEPROM, setupWiFi, power_on.
  msimpl. destruct (wifi_joins env0); msimpl; rewrite applyBandOutputs_run; msimpl;
    repeat split; reflexivity.
Qed.

(** The configured block time is between 1 s and 600 s. *)
Lemma booted_block_time (env0 : Env) :
  1000 <= bandBlockTimeMs (booted env0) <= 600000.
Proof.
  destruct (booted_fields env0) as (_ & _ & _ & _ & Hms & _). cbv zeta in Hms.
  rewrite Hms. unfold ulong, ULONG_BITS.
  destruct (Z.leb_spec (eeprom_block_seconds env0) 0);
    destruct (Z.ltb_spec 600 (eeprom_block_seconds env0)); cbn [orb];
    rewrite Z.mod_small; lia.
Qed.

(** ** Runs of [loop] *)

Lemma run_lookup_0 (m : Machine) (envs : list Env) (p : Pass) :
  run m envs !! O = Some p -> exists env, p = pass_of env m.
Proof.
  destruct envs as [|env rest]; cbn; [discriminate|].
  intros [= <-]. eauto.
Qed.

Lemma run_lookup_S (envs : list Env) :
  forall (m : Machine) (j : nat) (p : Pass),
    run m envs !! S j = Some p ->
    exists q env, run m envs !! j = Some q /\ p = pass_of env (p_after q).
Proof.
  induction envs as [|env rest IH]; intros m j p; [discriminate|].
  cbn [run]. rewrite lookup_cons. intros Hp.
  destruct j as [|j].
  - apply run_lookup_0 in Hp. destruct Hp as [env' ->].
    exists (pass_of env m), env'. split; reflexivity.
  - apply IH in Hp. destruct Hp as (q & env' & Hq & ->).
    exists q, env'. split; [|reflexivity]. rewrite lookup_cons. exact Hq.
Qed.


(** A property of the globals that every pass preserves holds before and
    after every pass of a run. *)
Lemma run_invariant (I : Machine -> Prop) :
  (forall env m, I m -> I (p_after (pass_of env m))) ->
  forall (envs : list Env) (m : Machine),
    I m -> Forall (fun p => I (p_before p) /\ I (p_after p)) (run m envs).
Proof.
  intros Hstep envs. induction envs as [|env rest IH]; intros m Hm; cbn [run].
  - constructor.
  - constructor; [split; [exact Hm | apply Hstep, Hm] | apply IH, Hstep, Hm].
Qed.

(** The latch [pttBlockReported] after a pass says whether the pass
    denied. *)
Lemma pass_latch env m :
  pttBlockReported (p_after (pass_of env m)) = denied env m.
Proof.
  destruct (pass_after_fields env m) as (_ & Hrep & _).
  rewrite Hrep. cbn [p_logic pass_of]. apply logic_latch.
Qed.

Lemma pass_debug_lines env m :
  debug_lines (p_events (pass_of env m))
  = if debugEnabled m then trigger_lines env m ++ ugl_lines env else [].
Proof. rewrite pass_events. cbn [p_logic_events pass_of]. apply logic_debug_lines. Qed.

Lemma run_lookup_pass (m : Machine) (envs : list Env) (k : nat) (p : Pass) :
  run m envs !! k = Some p -> p = pass_of (p_env p) (p_before p).
Proof.
  destruct k as [|j]; intros Hp.
  - apply run_lookup_0 in Hp. destruct Hp as [env ->]. reflexivity.
  - apply run_lookup_S in Hp. destruct Hp as (q & env & _ & ->). reflexivity.
Qed.

(** ** The denial line *)

(** The denial lines of one pass. *)
Lemma pass_denial_lines env m :
  denial_lines (p_events (pass_of env m))
  = if debugEnabled m && denied env m && negb (pttBlockReported m)
    then [MsgBlocked (block_ptt_seconds m)] else [].
Proof.
  unfold denial_lines. rewrite pass_debug_lines.
  destruct (debugEnabled m); [|reflexivity].
  unfold trigger_lines, ugl_lines.
  change (trigger_fires TrigDenialOnset env m)
    with (denied env m && negb (pttBlockReported m)).
  destruct (trigger_fires TrigTxOn env m), (trigger_fires TrigRelease env m),
    (trigger_fires TrigBandChange env m), (denied env m), (pttBlockReported m),
    (Bool.eqb (pin_level env uglasevanje) LOW); reflexivity.
Qed.

(** C7 as stated fails once debug output has been switched off: the second
    pass below is the first pass of a denial (PTT pressed 5 ms after a band
    change, PTT released on the pass before) and logs nothing. *)
Lemma C7_counterexample_debug_off :
  let w1 := world 70000 true HIGH HIGH LOW LOW HIGH LOW in
  let w2 := world 70005 true LOW HIGH LOW LOW HIGH LOW in
  let passes := run (booted (boot_world true)) [w1; w2] in
  let p := pass_of w2 (p_after (pass_of w1 (booted (boot_world true)))) in
  passes !! 1%nat = Some p /\
  denied (p_env p) (p_before p) = true /\
  denial_starts passes 1 = true /\
  debug_lines (p_events p) = [].
Proof. cbv zeta. split; [reflexivity|]. vm_compute. repeat split. Qed.

(** C7, amended: the denial line is edge-triggered while debug output is
    enabled.  In a run of [loop] from boot, a pass that denies (PTT input
    pressed while the block window is active) logs the denial line exactly
    once if debug output is enabled and the pass starts the denial (it is
    the first pass, or the pass before it did not deny), and does not log
    it otherwise: not on the following passes of the same denial, and not
    at all once debug output is disabled. *)
Theorem C7_denial_line_edge_triggered (env0 : Env) (envs : list Env) (k : nat) (p : Pass) :
  run (booted env0) envs !! k = Some p ->
  denied (p_env p) (p_before p) = true ->
  denial_lines (p_events p)
  = if debugEnabled (p_before p) && denial_starts (run (booted env0) envs) k
    then [MsgBlocked (block_ptt_seconds (p_before p))] else [].
Proof.
  intros Hp Hden. destruct k as [|j]; cbn [denial_starts].
  - apply run_lookup_0 in Hp. destruct Hp as [env ->].
    cbn [p_env p_before pass_of] in *.
    rewrite pass_denial_lines, Hden.
    destruct (booted_fields env0) as (_ & _ & _ & _ & _ & _ & -> & _).
    destruct (debugEnabled (booted env0)); reflexivity.
  - apply run_lookup_S in Hp. destruct Hp as (q & env & Hq & ->).
    cbn [p_env p_before pass_of] in *. rewrite Hq.
    rewrite pass_denial_lines, Hden.
    pose proof (pass_latch (p_env q) (p_before q)) as Hlatch.
    rewrite <- (run_lookup_pass _ _ _ _ Hq) in Hlatch. rewrite Hlatch.
    destruct (debugEnabled (p_after q)), (denied (p_env q) (p_before q)); reflexivity.
Qed.

(** Witness of C7: a band change at 5 s, then PTT pressed at 10 s. *)
Lemma C7_denial_line_edge_triggered_witness :
  let w1 := world 5000 true HIGH HIGH LOW LOW HIGH LOW in
  let w2 := world 10000 true LOW HIGH LOW LOW HIGH LOW in
  let passes := run (booted (boot_world true)) [w1; w2] in
  let p := pass_of w2 (p_after (pass_of w1 (booted (boot_world true)))) in
  passes !! 1%nat = Some p /\
  denied (p_env p) (p_before p) = true /\
  denial_lines (p_events p)
  = if debugEnabled (p_before p) && denial_starts passes 1
    then [MsgBlocked (block_ptt_seconds (p_before p))] else [].
Proof.
  cbv zeta. split; [reflexivity|]. split; [vm_compute; reflexivity|].
  apply (C7_denial_line_edge_triggered (boot_world true)
           [world 5000 true HIGH HIGH LOW LOW HIGH LOW;
            world 10000 true LOW HIGH LOW LOW HIGH LOW] 1).
  - reflexivity.
  - vm_compute. reflexivity.
Defined.

(** ** Occasions for debug lines *)

(** A pass that leaves [pttState], [pttBlockReported] and [bandOld] as
    they were meets none of the four occasions. *)
Lemma steady_no_trigger env m :
  let p := pass_of env m in
  pttState (p_after p) = pttState m ->
  pttBlockReported (p_after p) = pttBlockReported m ->
  bandOld (p_after p) = bandOld m ->
  trigger_lines env m = [].
Proof.
  cbv zeta.
  destruct (pass_after_fields env m) as (-> & -> & _ & -> & _).
  cbn [p_logic pass_of]. rewrite logic_pttState, logic_latch.
  unfold trigger_lines, trigger_fires, denied, bandChanged.
  destruct (pttPressed env) eqn:Hpress.
  - destruct (blockActive env m), (pttState m), (pttBlockReported m);
      cbn [andb negb]; intros; try discriminate; reflexivity.
  - intros <- <-. cbn [andb negb app].
    destruct (Z.eqb_spec (bandCode env) (bandOld m)) as [_|Hne]; [reflexivity|].
    intros Hold. exfalso. apply Hne. rewrite <- Hold.
    destruct (logic_released env m Hpress) as [Hm _]. cbv zeta in Hm. rewrite Hm.
    rewrite bandControl_changed by (rewrite released_bandOld; apply Z.eqb_neq, Hne).
    reflexivity.
Qed.

(** C8 as stated fails while the tuning input is LOW: after the boot of
    the specification's scenario, two passes with PTT released, the band
    pins unchanged and the tuning input LOW each log a line that belongs
    to none of the four occasions, the second of them without any change
    of the globals. *)
Lemma C8_counterexample_tuning_input :
  let w1 := world 1000 false HIGH LOW HIGH HIGH HIGH LOW in
  let w2 := world 1005 false HIGH LOW HIGH HIGH HIGH LOW in
  let p1 := pass_of w1 (booted (boot_world false)) in
  let p2 := pass_of w2 (p_after p1) in
  run (booted (boot_world false)) [w1; w2] = [p1; p2] /\
  debug_lines (p_events p1) = [MsgUglasevanje] /\
  debug_lines (p_events p2) = [MsgUglasevanje] /\
  trigger_of MsgUglasevanje = None /\
  interlock_state (p_after p1) = interlock_state (p_before p1) /\
  p_after p2 = p_before p2.
Proof. cbv zeta. split; [reflexivity|]. vm_compute. repeat split. Qed.

(** C8, amended: besides the lines of the four occasions, a pass logs one
    more line whenever the tuning input reads LOW.  While debug output is
    enabled, the debug lines of a pass are the lines of the occasions it
    meets (band change detected, denial onset, TX on, release), followed
    by the tuning-input line if that input is LOW; while it is disabled
    there are none.  A pass that leaves the interlock's globals as they
    were meets no occasion, so that in steady state the only line is the
    one of a LOW tuning input. *)
Theorem C8_debug_lines_by_occasion (env : Env) (m : Machine) :
  let p := pass_of env m in
  debug_lines (p_events p)
  = (if debugEnabled m then trigger_lines env m ++ ugl_lines env else []) /\
  Forall (fun msg => exists t, trigger_of msg = Some t /\ trigger_fires t env m = true)
    (trigger_lines env m) /\
  (interlock_state (p_after p) = interlock_state m -> trigger_lines env m = []) /\
  (pin_level env uglasevanje = HIGH -> ugl_lines env = []).
Proof.
  cbv zeta. split; [apply pass_debug_lines|]. split; [apply trigger_lines_fire|]. split.
  - unfold interlock_state. intros Hsame. injection Hsame as Hptt Hrep _ Hold _ _.
    apply steady_no_trigger; assumption.
  - unfold ugl_lines. intros ->. reflexivity.
Qed.

(** ** The one-minute limit on debug output *)

Lemma mqtt_debug_lines_app (l1 l2 : list Event) :
  mqtt_debug_lines (l1 ++ l2) = mqtt_debug_lines l1 ++ mqtt_debug_lines l2.
Proof. apply omap_app. Qed.

(** With [debugEnabled] cleared a call of [publishDebugMessage] leaves no
    trace at all, whoever calls it and with whatever text. *)
Lemma publishDebugMessage_disabled msg env rd m :
  debugEnabled m = false ->
  publishDebugMessage msg env rd m = (tt, rd, m, []).
Proof.
  intros Hoff. rewrite publishDebugMessage_run. unfold debug_out, debug_text.
  rewrite Hoff. reflexivity.
Qed.


Lemma mqtt_debug_lines_status env rd m : mqtt_debug_lines (status_out env rd m) = [].
Proof. unfold status_out, status_text. destruct (status_link env m); reflexivity. Qed.







(** ** The block window *)

(** Unsigned subtraction undoes unsigned addition. *)
Lemma ulong_elapsed (T e : Z) :
  0 <= e < 2 ^ 32 -> ulong (ulong (T + e) - T) = e.
Proof.
  intros He. unfold ulong, ULONG_BITS.
  rewrite Zminus_mod_idemp_l.
  replace (T + e - T) with e by lia. apply Z.mod_small. exact He.
Qed.

Lemma block_window_elapsed (T D e : Z) :
  0 <= e < 2 ^ 32 ->
  block_window_active (ulong (T + e)) T D = (e <=? D).
Proof. intros He. unfold block_window_active. rewrite ulong_elapsed by exact He. reflexivity. Qed.

(** A pass that detects a band change restarts the block window at the
    [millis()] reading of [bandControl], the second of the pass. *)
Lemma pass_band_change env m :
  pttPressed env = false -> bandChanged env m = true ->
  let m' := p_after (pass_of env m) in
  lastBandChangeTime m' = clock env 1%nat /\
  bandBlockTimeMs m' = bandBlockTimeMs m /\
  bandOld m' = bandCode env.
Proof.
  intros Hrel Hchg. cbv zeta.
  destruct (pass_after_fields env m) as (_ & _ & _ & -> & -> & -> & _).
  cbn [p_logic pass_of].
  destruct (logic_released_changed env m Hrel Hchg) as [Hm _]. cbv zeta in Hm.
  rewrite Hm. repeat split; reflexivity.
Qed.

(** C4 as stated fails at [t = T + D]: after a band change at 5000 ms with
    a block time of 15000 ms the window is still active at 20000 ms. *)
Lemma C4_counterexample_end_of_window :
  let m' := p_after (pass_of (world 5000 false HIGH HIGH LOW LOW HIGH LOW)
                       (booted (boot_world false))) in
  lastBandChangeTime m' = 5000 /\
  bandBlockTimeMs m' = 15000 /\
  blockActive (world 20000 false LOW HIGH LOW LOW HIGH LOW) m' = true.
Proof. vm_compute. repeat split. Qed.

(** C4, amended: the comparison is [<=].  After a pass that detects a band
    change, with [T] the clock reading it stores and [D] the configured
    block time, the block window of a later pass is active exactly when
    the time elapsed since [T], counted modulo 2^32, is at most [D]: for a
    reading [t] that has not wrapped, active for [T <= t <= T + D], the
    end point [T + D] included, and not active for [T + D < t]. *)
Theorem C4_block_window_closed_interval (env : Env) (m : Machine) :
  pttPressed env = false ->
  bandChanged env m = true ->
  0 <= clock env 1%nat < 2 ^ 32 ->
  let m' := p_after (pass_of env m) in
  let T := lastBandChangeTime m' in
  let D := bandBlockTimeMs m' in
  T = clock env 1%nat /\
  D = bandBlockTimeMs m /\
  (forall (later : Env) (e : Z),
     0 <= e < 2 ^ 32 -> clock later O = ulong (T + e) ->
     blockActive later m' = (e <=? D)) /\
  (forall later : Env,
     T <= clock later O < 2 ^ 32 ->
     blockActive later m' = (clock later O <=? T + D)).
Proof.
  intros Hrel Hchg Hclock m' T D.
  destruct (pass_band_change env m Hrel Hchg) as (HT & HD & _).
  fold m' in HT, HD. fold T in HT. fold D in HD.
  split; [exact HT|]. split; [exact HD|].
  assert (Hwrap : forall (later : Env) (e : Z),
             0 <= e < 2 ^ 32 -> clock later O = ulong (T + e) ->
             blockActive later m' = (e <=? D)).
  { intros later e He Hnow. unfold blockActive. fold T D. rewrite Hnow.
    apply block_window_elapsed, He. }
  split; [exact Hwrap|].
  intros later Ht.
  rewrite (Hwrap later (clock later O - T)).
  - destruct (Z.leb_spec (clock later O - T) D), (Z.leb_spec (clock later O) (T + D));
      try reflexivity; lia.
  - lia.
  - replace (T + (clock later O - T)) with (clock later O) by lia.
    unfold ulong, ULONG_BITS. symmetry. apply Z.mod_small. lia.
Qed.

(** Witness of C4: the band change at 5000 ms of the specification's
    scenario, block time 15000 ms. *)
Lemma C4_block_window_closed_interval_witness :
  let env := world 5000 false HIGH HIGH LOW LOW HIGH LOW in
  let m := booted (boot_world false) in
  let m' := p_after (pass_of env m) in
  let T := lastBandChangeTime m' in
  let D := bandBlockTimeMs m' in
  pttPressed env = false /\
  bandChanged env m = true /\
  0 <= clock env 1%nat < 2 ^ 32 /\
  T = clock env 1%nat /\
  D = bandBlockTimeMs m /\
  (forall (later : Env) (e : Z),
     0 <= e < 2 ^ 32 -> clock later O = ulong (T + e) ->
     blockActive later m' = (e <=? D)) /\
  (forall later : Env,
     T <= clock later O < 2 ^ 32 ->
     blockActive later m' = (clock later O <=? T + D)).
Proof.
  cbv zeta.
  split; [reflexivity|]. split; [vm_compute; reflexivity|]. split; [cbn; lia|].
  apply (C4_block_window_closed_interval (world 5000 false HIGH HIGH LOW LOW HIGH LOW)
           (booted (boot_world false))).
  - reflexivity.
  - vm_compute. reflexivity.
  - cbn. lia.
Defined.

(** ** Boot and the block window *)

(** [setup()] leaves [lastBandChangeTime] at its initial value 0, so the
    comparison of line 498 holds on every pass that starts within the
    block time after power-on. *)
Lemma boot_block_window (env0 env : Env) :
  0 <= clock env O <= bandBlockTimeMs (booted env0) ->
  clock env O < 2 ^ 32 ->
  lastBandChangeTime (booted env0) = 0 /\ blockActive env (booted env0) = true.
Proof.
  intros Hnow Hsmall.
  destruct (booted_fields env0) as (_ & _ & Hlast & _). cbv zeta in Hlast.
  split; [exact Hlast|].
  unfold blockActive, block_window_active. rewrite Hlast, Z.sub_0_r.
  unfold ulong, ULONG_BITS. rewrite Z.mod_small by lia. apply Z.leb_le. lia.
Qed.

(** C3, the firmware at the failing input: boot with a block time of 15 s,
    then a first pass at 1000 ms with the PTT input pressed.  No band
    change has been detected, yet the block window is active, the press is
    denied and the denial is logged. *)
Theorem C3_first_press_after_boot_denied :
  let m := booted (boot_world false) in
  let w := world 1000 false LOW HIGH HIGH HIGH HIGH LOW in
  let p := pass_of w m in
  lastBandChangeTime m = 0 /\
  bandOld m = bandCode w /\
  pttPressed w = true /\
  blockActive w m = true /\
  pttState (p_after p) = false /\
  pin_out (p_after p) !! pttOut = Some LOW /\
  debug_lines (p_events p) = [MsgBlocked 15].
Proof. vm_compute. repeat split. Qed.

(** ** The scenarios of the specification *)

(** Scenario 1.  Boot with the band pins at (1,1,1,0): band code 7,
    outputs (1,1,1,0), RX. *)
Example scenario_boot :
  let m := booted (boot_world true) in
  band m = 7 /\ pttState m = false /\
  map (fun i : nat => pin_out m !! pin_at bandOutPins i) [0; 1; 2; 3]%nat
  = [Some HIGH; Some HIGH; Some HIGH; Some LOW].
Proof. vm_compute. repeat split. Qed.

(** Scenarios 2 to 6, with the MQTT client connected and a block time of
    15 s.  At 5000 ms the band pins read (0,1,0,1), band code 10: outputs
    (0,0,1,0), one snapshot.  At 10000 ms PTT is pressed and denied.  At
    21000 ms it is still pressed and the block has expired: TX, one
    snapshot.  At 22000 ms it is released: RX, one snapshot.  At 23000 ms
    the band pins read (0,0,0,0), band code 0: all four outputs HIGH. *)
Example scenario_run :
  map pass_summary
    (run (booted (boot_world true))
       [ world 5000 true HIGH HIGH LOW HIGH LOW HIGH;
         world 10000 true LOW HIGH LOW HIGH LOW HIGH;
         world 21000 true LOW HIGH LOW HIGH LOW HIGH;
         world 22000 true HIGH HIGH LOW HIGH LOW HIGH;
         world 23000 true HIGH HIGH LOW LOW LOW LOW ])
  = [ (10, false, Some LOW, [Some LOW; Some LOW; Some HIGH; Some LOW], 1%nat,
       [MsgBandChange 7 10; MsgBandBlocking 15; MsgBandPattern 10 4]);
      (10, false, Some LOW, [Some LOW; Some LOW; Some HIGH; Some LOW], 0%nat,
       [MsgBlocked 15]);
      (10, true, Some HIGH, [Some LOW; Some LOW; Some HIGH; Some LOW], 1%nat,
       [MsgTxOn]);
      (10, false, Some LOW, [Some LOW; Some LOW; Some HIGH; Some LOW], 1%nat,
       [MsgTxOff]);
      (0, false, Some LOW, [Some HIGH; Some HIGH; Some HIGH; Some HIGH], 1%nat,
       [MsgBandChange 10 0; MsgBandBlocking 15; MsgBandPattern 0 15]) ].
Proof. vm_compute. reflexivity. Qed.

(** * Further properties of the firmware *)

(** ** The band decoder *)

(** [readBandCode] only reads: it leaves the globals and the trace alone,
    its result is a 4-bit code, and bit [i] of the code is the level of
    band input pin [i]. *)
Theorem readBandCode_decodes_pins (env : Env) (rd : nat) (m : Machine) :
  let r := readBandCode env rd m in
  machine_of r = m /\ reads_of r = rd /\ events_of r = [] /\
  0 <= value_of r <= 15 /\
  (forall i : nat, (i < 4)%nat ->
     Z.testbit (value_of r) (Z.of_nat i) = pin_level env (pin_at bandInPins i)) /\
  (forall j : Z, 4 <= j -> Z.testbit (value_of r) j = false).
Proof.
  cbv zeta. rewrite readBandCode_run. cbn [machine_of reads_of events_of value_of fst snd].
  split; [reflexivity|]. split; [reflexivity|]. split; [reflexivity|].
  split; [apply bandCode_range|].
  unfold bandCode. cbn -[Z.land Z.lor Z.shiftl u8 Mask].
  change (pin_at bandInPins 0) with 2. change (pin_at bandInPins 1) with 3.
  change (pin_at bandInPins 2) with 4. change (pin_at bandInPins 3) with 5.
  split.
  - intros i Hi.
    destruct i as [|[|[|[|i]]]]; [..|lia]; vm_compute pin_at;
      destruct (pin_level env 2), (pin_level env 3), (pin_level env 4), (pin_level env 5);
      reflexivity.
  - intros j Hj. change Mask with (Z.ones 4).
    rewrite Z.land_spec, Z.testbit_ones by lia.
    destruct (Z.ltb_spec j 4); [lia|]. rewrite andb_false_r. apply andb_false_r.
Qed.

(** ** Invariants of the stored band and of the outputs *)

Lemma booted_outputs (env0 : Env) (i : nat) :
  (i < 4)%nat ->
  pin_out (booted env0) !! pin_at bandOutPins i = Some (band_level (bandCode env0) i).
Proof.
  intros Hi. unfold booted, setup, loadConfigFromEEPROM, setupWiFi, power_on.
  msimpl. destruct (wifi_joins env0); msimpl; rewrite applyBandOutputs_run; msimpl;
    apply band_pins_lookup, Hi.
Qed.

Lemma booted_ptt_pin (env0 : Env) : pin_out (booted env0) !! pttOut = None.
Proof.
  unfold booted, setup, loadConfigFromEEPROM, setupWiFi, power_on.
  msimpl. destruct (wifi_joins env0); msimpl; rewrite applyBandOutputs_run; msimpl;
    rewrite band_pins_other by (unfold pttOut; lia);
    rewrite !lookup_insert_ne by (vm_compute; discriminate); apply lookup_empty.
Qed.

(** What a pass does to the stored band code and to a band output pin. *)
Lemma pass_band_state env m (i : nat) :
  (i < 4)%nat ->
  let p := pass_of env m in
  (pttPressed env = true \/ bandChanged env m = false ->
     bandOld (p_after p) = bandOld m /\
     pin_out (p_after p) !! pin_at bandOutPins i = pin_out m !! pin_at bandOutPins i) /\
  (pttPressed env = true -> band (p_after p) = band m) /\
  (pttPressed env = false -> band (p_after p) = bandCode env) /\
  (pttPressed env = false -> bandChanged env m = true ->
     bandOld (p_after p) = bandCode env /\
     pin_out (p_after p) !! pin_at bandOutPins i = Some (band_level (bandCode env) i)).
Proof.
  intros Hi. cbv zeta.
  destruct (pass_after_fields env m) as (_ & _ & -> & -> & _ & _ & -> & _).
  cbn [p_logic pass_of].
  assert (Hne : pttOut <> pin_at bandOutPins i).
  { intros Heq. symmetry in Heq. revert Heq. apply band_pin_not_ptt, Hi. }
  four_paths env m; rewrite Hm;
    destruct m as [b0 bo0 last0 dur0 secs0 tx0 rep0 en0 dl0 ts0 td0 po0];
    unfold write_ptt; mred;
    (split; [|split; [|split]]).
  all: try (intros [Hc | Hc]; discriminate).
  all: try (intros Hc; discriminate).
  all: intros; repeat match goal with |- _ /\ _ => split end.
  all: match goal with
       | |- _ !! _ = Some _ => apply band_pins_lookup, Hi
       | |- _ !! _ = _ !! _ => apply lookup_insert_ne, Hne
       | |- _ => reflexivity
       end.
Qed.

(** From boot on, at the end of every pass the two copies of the band
    code agree, the code is a 4-bit value, and every band output pin shows
    the bit of the pattern that the table gives for the stored code. *)
Theorem outputs_follow_stored_band (env0 : Env) (envs : list Env) :
  Forall
    (fun p : Pass =>
       band (p_after p) = bandOld (p_after p) /\
       0 <= bandOld (p_after p) <= 15 /\
       forall i : nat, (i < 4)%nat ->
         pin_out (p_after p) !! pin_at bandOutPins i
         = Some (Z.testbit (band_pattern (bandOld (p_after p))) (Z.of_nat i)))
    (run (booted env0) envs).
Proof.
  pose (I := fun m : Machine =>
               band m = bandOld m /\ 0 <= bandOld m <= 15 /\
               forall i : nat, (i < 4)%nat ->
                 pin_out m !! pin_at bandOutPins i
                 = Some (Z.testbit (band_pattern (bandOld m)) (Z.of_nat i))).
  assert (Hboot : I (booted env0)).
  { destruct (booted_fields env0) as (Hb & Ho & _). unfold I. rewrite Hb, Ho.
    split; [reflexivity|]. split; [apply bandCode_range|].
    intros i Hi. rewrite booted_outputs by exact Hi. rewrite band_level_testbit. reflexivity. }
  assert (Hstep : forall env m, I m -> I (p_after (pass_of env m))).
  { intros env m (Hband & Hrange & Hpins). unfold I.
    destruct (pttPressed env) eqn:Hpress;
      [|destruct (bandChanged env m) eqn:Hchg].
    - destruct (pass_band_state env m 0 ltac:(lia)) as (Hsame & Hb & _).
      destruct (Hsame (or_introl Hpress)) as [Hold _].
      rewrite (Hb Hpress), Hold. split; [exact Hband|]. split; [exact Hrange|].
      intros i Hi. destruct (pass_band_state env m i Hi) as (Hsame' & _).
      destruct (Hsame' (or_introl Hpress)) as [_ Hpin]. rewrite Hpin. apply Hpins, Hi.
    - destruct (pass_band_state env m 0 ltac:(lia)) as (_ & _ & Hb & Hnew).
      destruct (Hnew Hpress Hchg) as [Hold _].
      rewrite (Hb Hpress), Hold. split; [reflexivity|]. split; [apply bandCode_range|].
      intros i Hi. destruct (pass_band_state env m i Hi) as (_ & _ & _ & Hnew').
      destruct (Hnew' Hpress Hchg) as [_ Hpin]. rewrite Hpin, band_level_testbit.
      reflexivity.
    - destruct (pass_band_state env m 0 ltac:(lia)) as (Hsame & _ & Hb & _).
      destruct (Hsame (or_intror Hchg)) as [Hold _].
      rewrite (Hb Hpress), Hold.
      assert (Hcode : bandCode env = bandOld m).
      { unfold bandChanged in Hchg. apply negb_false_iff, Z.eqb_eq in Hchg. exact Hchg. }
      split; [exact Hcode|]. split; [exact Hrange|].
      intros i Hi. destruct (pass_band_state env m i Hi) as (Hsame' & _).
      destruct (Hsame' (or_intror Hchg)) as [_ Hpin]. rewrite Hpin. apply Hpins, Hi. }
  pose proof (run_invariant I Hstep envs (booted env0) Hboot) as Hrun.
  eapply Forall_impl; [exact Hrun|]. intros p [_ Hafter]. exact Hafter.
Qed.

(** At the end of every pass, from any globals, the PTT output pin shows
    [pttState], and TX and the denial latch are never set together. *)
Theorem ptt_pin_shows_state (m : Machine) (envs : list Env) :
  Forall
    (fun p : Pass =>
       pin_out (p_after p) !! pttOut = Some (pttState (p_after p)) /\
       pttState (p_after p) && pttBlockReported (p_after p) = false)
    (run m envs).
Proof.
  apply run_Forall. clear m envs. intros env m.
  destruct (pass_ptt env m) as (_ & Hptt & Hpin & _).
  rewrite Hpin, Hptt, pass_latch. unfold denied.
  split; [reflexivity|].
  destruct (pttPressed env), (blockActive env m); reflexivity.
Qed.

(** ** Debug output during the first minute *)

(** A pass whose clock readings are all before the deadline leaves the
    two debug globals as they were. *)
Lemma pass_debug_kept env m :
  debugEnabled m = true ->
  (forall n, clock env n < debugDeadline m) ->
  let p := pass_of env m in
  debugEnabled (p_after p) = true /\ debugDeadline (p_after p) = debugDeadline m.
Proof.
  intros Hon Hearly. cbv zeta. rewrite pass_after. cbv zeta.
  destruct (logic_config env m) as (Hen & Hdl & _). cbv zeta in Hen, Hdl.
  set (r := handleAmplifierLogic env O m) in *.
  assert (Hno : timed_out env (reads_of r) (machine_of r) = false).
  { unfold timed_out. rewrite Hen, Hdl, Hon.
    destruct (Z.leb_spec (debugDeadline m) (clock env (reads_of r))) as [Hle|_].
    - specialize (Hearly (reads_of r)). lia.
    - apply andb_false_r. }
  rewrite Hno. rewrite Hen, Hdl. split; [exact Hon | reflexivity].
Qed.

(** Debug output stays enabled for the whole first minute: in a run from
    boot, as long as every clock reading of every pass so far is earlier
    than 60000 ms after the reading of [setup()], [debugEnabled] is set
    before and after the interlock part of each pass (lines 604-612), so
    that every line [handleAmplifierLogic] hands to [publishDebugMessage]
    reaches the serial port: the serial lines of [handleAmplifierLogic]
    in the pass are the lines of its occasions, then the tuning line.
    What the end of [loop] prints (lines 614-630) is not part of this. *)
Theorem debug_enabled_during_first_minute (env0 : Env) (envs : list Env) :
  0 <= clock env0 O < 2 ^ 32 - 60000 ->
  Forall (fun env : Env => forall n, clock env n < 60000 + clock env0 O) envs ->
  Forall
    (fun p : Pass =>
       debugEnabled (p_before p) = true /\ debugEnabled (p_after p) = true /\
       p_logic_events p = events_of (handleAmplifierLogic (p_env p) O (p_before p)) /\
       debug_lines (p_logic_events p)
       = trigger_lines (p_env p) (p_before p) ++ ugl_lines (p_env p))
    (run (booted env0) envs).
Proof.
  intros Hboot Hearly.
  set (D := 60000 + clock env0 O) in *.
  assert (Hinit : debugEnabled (booted env0) = true /\ debugDeadline (booted env0) = D).
  { destruct (booted_fields env0) as (_ & _ & _ & _ & _ & _ & _ & -> & -> & _).
    split; [reflexivity|]. unfold ulong, ULONG_BITS. apply Z.mod_small. unfold D. lia. }
  revert Hinit. generalize (booted env0) as m.
  induction Hearly as [|env rest Henv _ IH]; intros m [Hon Hdl]; cbn [run].
  - constructor.
  - destruct (pass_debug_kept env m Hon) as [Hon' Hdl'].
    { intros n. rewrite Hdl. apply Henv. }
    constructor.
    + cbn [p_before p_env p_logic_events pass_of].
      split; [exact Hon|]. split; [exact Hon'|]. split; [reflexivity|].
      rewrite logic_debug_lines, Hon. reflexivity.
    + apply IH. split; [exact Hon' | congruence].
Qed.

(** Witness: boot at 10 ms, then a band change at 5 s and a denied press
    at 10 s. *)
Lemma debug_enabled_during_first_minute_witness :
  let envs := [world 5000 true HIGH HIGH LOW LOW HIGH LOW;
               world 10000 true LOW HIGH LOW LOW HIGH LOW] in
  0 <= clock (boot_world true) O < 2 ^ 32 - 60000 /\
  Forall (fun env : Env => forall n, clock env n < 60000 + clock (boot_world true) O) envs /\
  Forall
    (fun p : Pass =>
       debugEnabled (p_before p) = true /\ debugEnabled (p_after p) = true /\
       p_logic_events p = events_of (handleAmplifierLogic (p_env p) O (p_before p)) /\
       debug_lines (p_logic_events p)
       = trigger_lines (p_env p) (p_before p) ++ ugl_lines (p_env p))
    (run (booted (boot_world true)) envs).
Proof.
  cbv zeta.
  assert (H1 : 0 <= clock (boot_world true) O < 2 ^ 32 - 60000) by (cbn; lia).
  assert (H2 : Forall (fun env : Env => forall n, clock env n < 60000 + clock (boot_world true) O)
                 [world 5000 true HIGH HIGH LOW LOW HIGH LOW;
                  world 10000 true LOW HIGH LOW LOW HIGH LOW])
    by (repeat constructor; intros n; cbn; lia).
  split; [exact H1|]. split; [exact H2|].
  apply (debug_enabled_during_first_minute (boot_world true) _ H1 H2).
Defined.

(** ** The status snapshot *)

(** [publishAmpStatus] never changes a global.  When the MQTT client is
    connected and the status topic is set it publishes one snapshot of the
    current PTT state and band code; the block flag is the comparison of
    line 343 on its first clock reading, and the time left is computed
    from a second reading: the block time minus the elapsed time if the
    window is still active at that reading, zero if it was not active at
    the first one, and a value wrapped around 2^32 if the window ran out
    between the two readings. *)
Theorem publishAmpStatus_snapshot (env : Env) (rd : nat) (m : Machine) :
  mqtt_connected env = true ->
  topic_status_set m = true ->
  0 <= bandBlockTimeMs m < 2 ^ 32 ->
  let r := publishAmpStatus env rd m in
  let D := bandBlockTimeMs m in
  let e1 := ulong (clock env rd - lastBandChangeTime m) in
  let e2 := ulong (clock env (S rd) - lastBandChangeTime m) in
  machine_of r = m /\
  exists s : Snapshot,
    events_of r = [MqttStatus s] /\
    snap_ptt s = pttState m /\ snap_band s = band m /\
    snap_block s = (e1 <=? D) /\
    snap_block_ms_left s
    = (if e1 <=? D then if e2 <=? D then D - e2 else 2 ^ 32 + D - e2 else 0).
Proof.
  intros Hup Htopic HD. cbv zeta. rewrite publishAmpStatus_run.
  cbn [machine_of events_of fst snd]. split; [reflexivity|].
  unfold status_out, status_link, status_text. rewrite Hup, Htopic. cbn [andb].
  eexists. split; [reflexivity|].
  unfold status_snapshot, block_window_active. cbn [snap_ptt snap_band snap_block snap_block_ms_left].
  repeat split.
  destruct (_ <=? bandBlockTimeMs m); [|reflexivity].
  set (e2 := ulong (clock env (S rd) - lastBandChangeTime m)).
  assert (He2 : 0 <= e2 < 2 ^ 32) by (apply Z.mod_pos_bound; reflexivity).
  unfold ulong at 1. unfold ULONG_BITS.
  destruct (Z.leb_spec e2 (bandBlockTimeMs m)).
  - apply Z.mod_small. lia.
  - replace (bandBlockTimeMs m - e2) with ((2 ^ 32 + bandBlockTimeMs m - e2) + (-1) * 2 ^ 32)
      by lia.
    rewrite Z.mod_add by lia. apply Z.mod_small. lia.
Qed.

(** Witness: a snapshot 3 s into a block window of 15 s. *)
Lemma publishAmpStatus_snapshot_witness :
  let env := world 8000 true HIGH HIGH LOW LOW HIGH LOW in
  let m := p_after (pass_of (world 5000 true HIGH HIGH LOW LOW HIGH LOW)
                      (booted (boot_world true))) in
  let r := publishAmpStatus env O m in
  let D := bandBlockTimeMs m in
  let e1 := ulong (clock env O - lastBandChangeTime m) in
  let e2 := ulong (clock env 1%nat - lastBandChangeTime m) in
  mqtt_connected env = true /\
  topic_status_set m = true /\
  0 <= bandBlockTimeMs m < 2 ^ 32 /\
  machine_of r = m /\
  exists s : Snapshot,
    events_of r = [MqttStatus s] /\
    snap_ptt s = pttState m /\ snap_band s = band m /\
    snap_block s = (e1 <=? D) /\
    snap_block_ms_left s
    = (if e1 <=? D then if e2 <=? D then D - e2 else 2 ^ 32 + D - e2 else 0).
Proof.
  cbv zeta.
  assert (HD : bandBlockTimeMs
                 (p_after (pass_of (world 5000 true HIGH HIGH LOW LOW HIGH LOW)
                             (booted (boot_world true)))) = 15000)
    by (vm_compute; reflexivity).
  split; [reflexivity|]. split; [vm_compute; reflexivity|]. split; [rewrite HD; lia|].
  apply (publishAmpStatus_snapshot (world 8000 true HIGH HIGH LOW LOW HIGH LOW) O).
  - reflexivity.
  - vm_compute. reflexivity.
  - rewrite HD. lia.
Defined.

Lemma status_out_final env rd m' (ptt : bool) (b : Z) :
  pttState m' = ptt -> band m' = b ->
  Forall (fun s => snap_ptt s = ptt /\ snap_band s = b)
    (status_snapshots (status_out env rd m')).
Proof.
  intros Hp Hb. rewrite status_snapshots_status.
  destruct (status_link env m'); repeat constructor; cbn; assumption.
Qed.

(** Every snapshot published during a pass carries the PTT state and the
    band code that the pass ends with, also when the pass publishes two
    (release together with a band change). *)
Theorem snapshots_report_final_state (env : Env) (m : Machine) :
  let p := pass_of env m in
  Forall (fun s : Snapshot =>
            snap_ptt s = pttState (p_after p) /\ snap_band s = band (p_after p))
    (status_snapshots (p_events p)).
Proof.
  cbv zeta.
  destruct (pass_after_fields env m) as (-> & _ & -> & _).
  rewrite pass_events. cbn [p_logic p_logic_events pass_of].
  four_paths env m; rewrite Hm, Hev;
    repeat (rewrite status_snapshots_app || rewrite status_snapshots_ugl
            || rewrite status_snapshots_band || rewrite status_snapshots_debug);
    destruct (pttState m), (pttBlockReported m);
    repeat (rewrite status_snapshots_debug);
    cbn [status_snapshots omap app];
    repeat (apply Forall_app; split);
    first [ apply status_out_final; reflexivity | constructor ].
Qed.

(** ** The pin writes of a pass *)

(** Every pass writes the PTT output exactly once, before any other pin,
    at the level [pressed and not blocked].  The four band outputs are
    written only in a pass that reads the PTT input released and a band
    code other than the stored one: once each, in the order of
    [bandOutPins], after the PTT output has been written LOW.  No other
    pin is written. *)
Theorem pass_pin_writes (env : Env) (m : Machine) :
  let p := pass_of env m in
  pin_writes (p_events p)
  = (pttOut, pttPressed env && negb (blockActive env m))
    :: (if negb (pttPressed env) && bandChanged env m
        then map (fun i : nat => (pin_at bandOutPins i, band_level (bandCode env) i))
               [0; 1; 2; 3]%nat
        else []).
Proof.
  cbv zeta. rewrite pass_events. cbn [p_logic_events pass_of].
  four_paths env m; rewrite Hev;
    repeat (rewrite pin_writes_app || rewrite pin_writes_debug || rewrite pin_writes_status
            || rewrite pin_writes_ugl || rewrite pin_writes_band);
    destruct (pttState m), (pttBlockReported m);
    repeat (rewrite pin_writes_debug || rewrite pin_writes_status);
    reflexivity.
Qed.

(** The band outputs move in receive only: when a pass leaves one of the
    four band outputs at another level than it found it, the PTT input
    was read released in that pass, the pass leaves the PTT output LOW
    and [pttState] false, and it restarts the block window at its second
    [millis()] reading. *)
Theorem band_outputs_move_in_receive_only (env : Env) (m : Machine) (i : nat) :
  (i < 4)%nat ->
  let p := pass_of env m in
  pin_out (p_after p) !! pin_at bandOutPins i <> pin_out m !! pin_at bandOutPins i ->
  pttPressed env = false /\
  bandChanged env m = true /\
  pin_out (p_after p) !! pttOut = Some LOW /\
  pttState (p_after p) = false /\
  lastBandChangeTime (p_after p) = clock env 1%nat.
Proof.
  intros Hi p Hmove. subst p.
  destruct (pass_band_state env m i Hi) as (Hkeep & _).
  destruct (pttPressed env) eqn:Hpress.
  { exfalso. apply Hmove. apply (Hkeep (or_introl eq_refl)). }
  destruct (bandChanged env m) eqn:Hchg.
  2: { exfalso. apply Hmove. apply (Hkeep (or_intror eq_refl)). }
  destruct (pass_ptt env m) as (_ & Hptt & Hpin & _). cbv zeta in Hptt, Hpin.
  rewrite Hpress in Hptt, Hpin.
  destruct (pass_band_change env m Hpress Hchg) as (Hlast & _).
  repeat split; assumption.
Qed.

(** Witness: booted on band code 7 (pattern 0111), then a released pass
    on code 10 (pattern 0100): output 0 goes from HIGH to LOW. *)
Lemma band_outputs_move_in_receive_only_witness :
  let env := world 5000 false HIGH HIGH LOW HIGH LOW HIGH in
  let m := booted (boot_world false) in
  let p := pass_of env m in
  pin_out (p_after p) !! pin_at bandOutPins 0 <> pin_out m !! pin_at bandOutPins 0 /\
  pttPressed env = false /\
  bandChanged env m = true /\
  pin_out (p_after p) !! pttOut = Some LOW /\
  pttState (p_after p) = false /\
  lastBandChangeTime (p_after p) = clock env 1%nat.
Proof.
  cbv zeta.
  assert (Hmove : pin_out (p_after (pass_of (world 5000 false HIGH HIGH LOW HIGH LOW HIGH)
                                      (booted (boot_world false))))
                    !! pin_at bandOutPins 0
                  <> pin_out (booted (boot_world false)) !! pin_at bandOutPins 0).
  { vm_compute. discriminate. }
  split; [exact Hmove|].
  apply (band_outputs_move_in_receive_only
           (world 5000 false HIGH HIGH LOW HIGH LOW HIGH) (booted (boot_world false)) 0).
  - lia.
  - exact Hmove.
Defined.

(** ** What goes out over MQTT *)

Lemma mqtt_debug_lines_debug env m msg :
  mqtt_debug_lines (debug_out env m msg)
  = if mqtt_connected env && topic_debug_set m
    then debug_lines (debug_out env m msg) else [].
Proof.
  unfold debug_out, debug_text.
  destruct (debugEnabled m), (mqtt_connected env && topic_debug_set m); reflexivity.
Qed.

Lemma pass_mqtt_debug_mirror env m :
  let p := pass_of env m in
  mqtt_debug_lines (p_events p)
  = if mqtt_connected env && topic_debug_set m then debug_lines (p_events p) else [].
Proof.
  cbv zeta. rewrite pass_events. cbn [p_logic_events pass_of].
  four_paths env m; rewrite Hev; unfold ugl_out;
    destruct (pttState m), (pttBlockReported m), (Bool.eqb (pin_level env uglasevanje) LOW);
    repeat (rewrite mqtt_debug_lines_app || rewrite debug_lines_app
            || rewrite mqtt_debug_lines_status || rewrite debug_lines_status
            || rewrite mqtt_debug_lines_debug);
    destruct (mqtt_connected env && topic_debug_set m); reflexivity.
Qed.


Lemma pass_no_topics env m :
  topic_status_set m = false -> topic_debug_set m = false ->
  let p := pass_of env m in
  mqtt_debug_lines (p_events p) = [] /\ status_snapshots (p_events p) = [] /\
  topic_status_set (p_after p) = false /\ topic_debug_set (p_after p) = false.
Proof.
  intros Hst Hdb. cbv zeta.
  destruct (pass_after_fields env m) as (_ & _ & _ & _ & _ & _ & _ & _ & -> & ->).
  cbn [p_logic pass_of].
  destruct (logic_config env m) as (_ & _ & _ & _ & -> & ->).
  split; [|split; [|split; assumption]].
  - pose proof (pass_mqtt_debug_mirror env m) as Hmirror. cbv zeta in Hmirror.
    rewrite Hmirror, Hdb, andb_false_r. reflexivity.
  - rewrite pass_events. cbn [p_logic_events pass_of].
    apply length_zero_iff_nil.
    pose proof (logic_status_count env m) as Hcount. cbv zeta in Hcount.
    rewrite Hcount. unfold status_link. rewrite Hst, andb_false_r. reflexivity.
Qed.

(** After a boot that ends in access-point mode (no SSID stored, or the
    association timed out) the two topics stay empty for good, and the
    interlock part of a pass (lines 604-612) never publishes a status
    snapshot or a debug line over MQTT, whatever the MQTT client
    reports. *)
Theorem ap_mode_publishes_nothing (env0 : Env) (envs : list Env) :
  wifi_joins env0 = false ->
  Forall
    (fun p : Pass =>
       mqtt_debug_lines (p_events p) = [] /\ status_snapshots (p_events p) = [] /\
       topic_status_set (p_after p) = false /\ topic_debug_set (p_after p) = false)
    (run (booted env0) envs).
Proof.
  intros Hap.
  assert (Hinit : topic_status_set (booted env0) = false /\ topic_debug_set (booted env0) = false).
  { destruct (booted_fields env0) as (_ & _ & _ & _ & _ & _ & _ & _ & _ & -> & ->).
    split; exact Hap. }
  revert Hinit. generalize (booted env0) as m.
  induction envs as [|env rest IH]; intros m [Hst Hdb]; cbn [run].
  - constructor.
  - pose proof (pass_no_topics env m Hst Hdb) as Hpass. cbv zeta in Hpass.
    constructor; [exact Hpass|].
    apply IH. split; apply Hpass.
Qed.

(** Witness: boot in access-point mode, then a band change and a press
    with the MQTT client reported connected. *)
Lemma ap_mode_publishes_nothing_witness :
  let env0 := world 10 false HIGH HIGH HIGH HIGH HIGH LOW in
  let envs := [world 5000 true HIGH HIGH LOW LOW HIGH LOW;
               world 30000 true LOW HIGH LOW LOW HIGH LOW] in
  wifi_joins env0 = false /\
  Forall
    (fun p : Pass =>
       mqtt_debug_lines (p_events p) = [] /\ status_snapshots (p_events p) = [] /\
       topic_status_set (p_after p) = false /\ topic_debug_set (p_after p) = false)
    (run (booted env0) envs).
Proof.
  cbv zeta. split; [reflexivity|].
  apply (ap_mode_publishes_nothing (world 10 false HIGH HIGH HIGH HIGH HIGH LOW)
           [world 5000 true HIGH HIGH LOW LOW HIGH LOW;
            world 30000 true LOW HIGH LOW LOW HIGH LOW]).
  reflexivity.
Defined.

(** ** The stored configuration *)

Lemma eeprom_put_length (addr : nat) (data mem : list Z) :
  length (Config.eeprom_put addr data mem) = length mem.
Proof.
  unfold Config.eeprom_put.
  destruct (Nat.leb_spec (addr + length data) (length mem)); [|reflexivity].
  rewrite !length_app, length_take, length_drop. lia.
Qed.

Lemma eeprom_get_length (addr : nat) (cur mem : list Z) :
  length (Config.eeprom_get addr cur mem) = length cur.
Proof.
  unfold Config.eeprom_get.
  destruct (Nat.leb_spec (addr + length cur) (length mem)); [|reflexivity].
  rewrite length_take, length_drop. lia.
Qed.

(** What was put at an address is what is got from it. *)
Lemma eeprom_get_put (addr : nat) (data cur mem : list Z) :
  length cur = length data ->
  (addr + length data <= length mem)%nat ->
  Config.eeprom_get addr cur (Config.eeprom_put addr data mem) = data.
Proof.
  intros Hlen Hfit. unfold Config.eeprom_get. rewrite eeprom_put_length, Hlen.
  destruct (Nat.leb_spec (addr + length data) (length mem)); [|lia].
  unfold Config.eeprom_put.
  destruct (Nat.leb_spec (addr + length data) (length mem)); [|lia].
  rewrite drop_app_length' by (rewrite length_take; lia).
  rewrite take_app_length. reflexivity.
Qed.

(** A put leaves every range that it does not overlap as it was. *)
Lemma eeprom_get_put_other (addr addr' : nat) (data cur mem : list Z) :
  (addr' + length cur <= addr \/ addr + length data <= addr')%nat ->
  Config.eeprom_get addr' cur (Config.eeprom_put addr data mem)
  = Config.eeprom_get addr' cur mem.
Proof.
  intros Hdisj. unfold Config.eeprom_get. rewrite eeprom_put_length.
  destruct (Nat.leb_spec (addr' + length cur) (length mem)); [|reflexivity].
  unfold Config.eeprom_put.
  destruct (Nat.leb_spec (addr + length data) (length mem)); [|reflexivity].
  apply list_eq. intros i.
  rewrite !lookup_take. 
  destruct (decide (i < length cur)%nat) as [Hi|Hi]; [|reflexivity].
  rewrite !lookup_drop.
  destruct Hdisj as [Hbefore | Hafter].
  - rewrite lookup_app_l by (rewrite length_take; lia).
    rewrite lookup_take_lt by lia. reflexivity.
  - rewrite lookup_app_r by (rewrite length_take; lia).
    rewrite length_take, lookup_app_r by lia.
    rewrite lookup_drop. f_equal. lia.
Qed.

(** An [int] survives the round trip through its four bytes. *)
Lemma int_of_bytes_int_bytes (x : Z) :
  - 2 ^ 31 <= x < 2 ^ 31 -> Config.int_of_bytes (Config.int_bytes x) = x.
Proof.
  intros Hx. unfold Config.int_bytes, Config.int_of_bytes.
  pose proof (Z.div_mod x 256 ltac:(lia)) as H0.
  pose proof (Z.div_mod (x / 256) 256 ltac:(lia)) as H1.
  pose proof (Z.div_mod (x / 65536) 256 ltac:(lia)) as H2.
  pose proof (Z.div_mod (x / 16777216) 256 ltac:(lia)) as H3.
  replace (x / 256 / 256) with (x / 65536) in H1 by (rewrite Z.div_div by lia; reflexivity).
  replace (x / 65536 / 256) with (x / 16777216) in H2 by (rewrite Z.div_div by lia; reflexivity).
  pose proof (Z.mod_pos_bound x 256 ltac:(lia)).
  pose proof (Z.mod_pos_bound (x / 256) 256 ltac:(lia)).
  pose proof (Z.mod_pos_bound (x / 65536) 256 ltac:(lia)).
  pose proof (Z.mod_pos_bound (x / 16777216) 256 ltac:(lia)).
  cbv zeta.
  match goal with |- (if ?u <? _ then _ else _) = _ => destruct (Z.ltb_spec u (2 ^ 31)) end; lia.
Qed.

Lemma int_bytes_length (x : Z) : length (Config.int_bytes x) = 4%nat.
Proof. reflexivity. Qed.

(** The text of an array has no NUL in it. *)
Lemma c_str_nonzero (s : list Z) : Forall (fun c => c <> 0) (Config.c_str s).
Proof.
  induction s as [|c rest IH]; cbn [Config.c_str]; [constructor|].
  destruct (Z.eqb_spec c 0); constructor; assumption.
Qed.

Lemma c_str_app_nul (l r : list Z) :
  Forall (fun c => c <> 0) l -> Config.c_str (l ++ 0 :: r) = l.
Proof.
  induction 1 as [|c l Hc _ IH]; cbn [app Config.c_str]; [reflexivity|].
  destruct (Z.eqb_spec c 0); [contradiction|]. rewrite IH. reflexivity.
Qed.

Lemma strncpy_length (n : nat) (src : list Z) : length (Config.strncpy n src) = n.
Proof.
  unfold Config.strncpy. cbv zeta. rewrite length_app, length_replicate, length_take. lia.
Qed.

(** The text of an [n]-byte array after [strncpy] and the forced NUL in
    its last byte: the first [n - 1] characters of the source text. *)
Lemma c_str_terminate_strncpy (n : nat) (src : list Z) :
  (0 < n)%nat ->
  Config.c_str (Config.terminate (Config.strncpy n src))
  = take (n - 1) (Config.c_str src).
Proof.
  intros Hn. unfold Config.terminate. rewrite strncpy_length.
  unfold Config.strncpy. cbv zeta.
  pose proof (c_str_nonzero src) as Hnz.
  set (cs := Config.c_str src) in *.
  destruct (Nat.lt_ge_cases (length cs) n) as [Hshort | Hlong].
  - rewrite take_ge by lia.
    rewrite list_insert_id.
    + destruct (n - length cs)%nat as [|k] eqn:Hk; [lia|].
      cbn [replicate]. rewrite c_str_app_nul by exact Hnz.
      symmetry. apply take_ge. lia.
    + rewrite lookup_app_r by lia. apply lookup_replicate. split; [reflexivity|lia].
  - rewrite length_take, Nat.min_l by lia. rewrite Nat.sub_diag. cbn [replicate].
    rewrite app_nil_r.
    rewrite <- (take_drop (n - 1) (take n cs)) at 1.
    rewrite take_take, Nat.min_l by lia.
    rewrite insert_app_r_alt by (rewrite length_take; lia).
    rewrite length_take, Nat.min_l by lia. rewrite Nat.sub_diag.
    destruct (drop (n - 1) (take n cs)) as [|c rest] eqn:Hd.
    + exfalso. apply (f_equal length) in Hd. rewrite length_drop, length_take in Hd.
      cbn in Hd. lia.
    + cbn [insert list_insert]. apply c_str_app_nul.
      apply Forall_take, Hnz.
Qed.

Lemma terminate_length (arr : list Z) : length (Config.terminate arr) = length arr.
Proof. unfold Config.terminate. apply length_insert. Qed.

Lemma terminate_last (arr : list Z) :
  (0 < length arr)%nat -> Config.terminate arr !! (length arr - 1)%nat = Some 0.
Proof. intros Hlen. unfold Config.terminate. apply list_lookup_insert_eq. lia. Qed.

(** A NUL at index [i] bounds the text by [i] characters. *)
Lemma c_str_length_le (s : list Z) :
  forall i : nat, s !! i = Some 0 -> (length (Config.c_str s) <= i)%nat.
Proof.
  induction s as [|c rest IH]; intros i Hi; [discriminate|].
  cbn [Config.c_str]. destruct (Z.eqb_spec c 0) as [->|Hc]; [cbn; lia|].
  destruct i as [|i]; [cbn in Hi; congruence|].
  cbn [length]. apply IH in Hi. lia.
Qed.

Lemma clamp_block_range (b : Z) : 1 <= Config.clamp_block b <= 600.
Proof.
  unfold Config.clamp_block.
  destruct (Z.leb_spec b 0), (Z.ltb_spec 600 b); cbn [orb]; lia.
Qed.

Lemma clamp_port_range (p : Z) : 1 <= Config.clamp_port p <= 65535.
Proof.
  unfold Config.clamp_port.
  destruct (Z.leb_spec p 0), (Z.ltb_spec 65535 p); cbn [orb]; lia.
Qed.

Lemma block_ms (b : Z) : 1 <= b <= 600 -> ulong (b * 1000) = 1000 * b.
Proof. intros Hb. unfold ulong, ULONG_BITS. rewrite Z.mod_small by lia. lia. Qed.

(** Whatever the sector holds - erased flash, a short or damaged sector,
    values written by another program - [loadConfigFromEEPROM] at boot
    leaves a port between 1 and 65535, a block time between 1 s and
    600 s with [bandBlockTimeMs] a thousand times that, and four character
    arrays of their declared sizes with a NUL in the last byte, so that
    every text is shorter than its array. *)
Theorem loadConfig_sanitises (mem : list Z) :
  let s := Config.loadConfigFromEEPROM mem Config.power_on in
  1 <= Config.mqtt_port s <= 65535 /\
  1 <= Config.block_ptt_seconds s <= 600 /\
  Config.bandBlockTimeMs s = 1000 * Config.block_ptt_seconds s /\
  (length (Config.ssid s) = 32%nat /\ (length (Config.c_str (Config.ssid s)) <= 31)%nat) /\
  (length (Config.password s) = 32%nat /\
   (length (Config.c_str (Config.password s)) <= 31)%nat) /\
  (length (Config.mqtt_server s) = 40%nat /\
   (length (Config.c_str (Config.mqtt_server s)) <= 39)%nat) /\
  (length (Config.amplifier_name s) = 32%nat /\
   (length (Config.c_str (Config.amplifier_name s)) <= 31)%nat).
Proof.
  cbv zeta. unfold Config.loadConfigFromEEPROM. cbv zeta.
  cbn [Config.mqtt_port Config.block_ptt_seconds Config.bandBlockTimeMs Config.ssid
       Config.password Config.mqtt_server Config.amplifier_name].
  fold (Config.clamp_port
          (Config.int_of_bytes
             (Config.eeprom_get Config.OFF_MQTT_PORT
                (Config.int_bytes (Config.mqtt_port Config.power_on)) mem))).
  fold (Config.clamp_block
          (Config.int_of_bytes
             (Config.eeprom_get Config.OFF_BLOCK_PTT_SECONDS
                (Config.int_bytes (Config.block_ptt_seconds Config.power_on)) mem))).
  split; [apply clamp_port_range|]. split; [apply clamp_block_range|].
  split; [apply block_ms, clamp_block_range|].
  assert (Hstr : forall (addr : nat) (cur : list Z) (n : nat),
             length cur = S n ->
             length (Config.terminate (Config.eeprom_get addr cur mem)) = S n /\
             (length (Config.c_str (Config.terminate (Config.eeprom_get addr cur mem))) <= n)%nat).
  { intros addr cur n Hcur.
    pose proof (eeprom_get_length addr cur mem) as Hlen. rewrite Hcur in Hlen.
    split; [rewrite terminate_length; exact Hlen|].
    apply c_str_length_le.
    replace n with (length (Config.eeprom_get addr cur mem) - 1)%nat by lia.
    apply terminate_last. lia. }
  repeat split; apply Hstr; reflexivity.
Qed.

Ltac layout_side :=
  rewrite ?strncpy_length, ?int_bytes_length, ?length_replicate, ?eeprom_put_length;
  unfold Config.OFF_SSID, Config.OFF_PASSWORD, Config.OFF_MQTT_SERVER,
    Config.OFF_MQTT_PORT, Config.OFF_AMPLIFIER_NAME, Config.OFF_BLOCK_PTT_SECONDS,
    Config.EEPROM_SIZE in *;
  lia.

(** The six fields of the sector do not overlap and fit in it: after
    [handleSave], each field read back from the committed sector is the
    value that was put there. *)
Lemma handleSave_sector (form : Config.Form) (mem : list Z) :
  length mem = Config.EEPROM_SIZE ->
  let saved := fst (Config.handleSave form mem) in
  let mem' := snd (Config.handleSave form mem) in
  length mem' = Config.EEPROM_SIZE /\
  Config.eeprom_get Config.OFF_SSID (replicate 32 0) mem' = Config.ssid saved /\
  Config.eeprom_get Config.OFF_PASSWORD (replicate 32 0) mem' = Config.password saved /\
  Config.eeprom_get Config.OFF_MQTT_SERVER (replicate 40 0) mem'
    = Config.mqtt_server saved /\
  Config.eeprom_get Config.OFF_MQTT_PORT (Config.int_bytes 1883) mem'
    = Config.int_bytes (Config.mqtt_port saved) /\
  Config.eeprom_get Config.OFF_AMPLIFIER_NAME (Config.strncpy 32 (Config.literal "AMP-01")) mem'
    = Config.amplifier_name saved /\
  Config.eeprom_get Config.OFF_BLOCK_PTT_SECONDS (Config.int_bytes 15) mem'
    = Config.int_bytes (Config.block_ptt_seconds saved).
Proof.
  intros Hmem. cbv zeta. unfold Config.handleSave. cbv zeta.
  cbn [fst snd Config.ssid Config.password Config.mqtt_server Config.mqtt_port
       Config.amplifier_name Config.block_ptt_seconds].
  split; [rewrite !eeprom_put_length; exact Hmem|].
  repeat split;
    rewrite ?eeprom_get_put_other by layout_side;
    apply eeprom_get_put; layout_side.
Qed.

(** Saving the form and restarting: the configuration that the next boot
    loads has, as texts, the first 31 characters of the SSID, password and
    amplifier name and the first 39 of the server name that were sent;
    the port that was sent if it is between 1 and 65535 and 1883
    otherwise; and the block time that was sent if it is between 1 s and
    600 s and 15 s otherwise. *)
Theorem save_and_reboot_round_trip (form : Config.Form) (mem : list Z) :
  length mem = Config.EEPROM_SIZE ->
  - 2 ^ 31 <= Config.arg_mqtt_port form < 2 ^ 31 ->
  let s := Config.save_and_reboot form mem in
  Config.c_str (Config.ssid s) = take 31 (Config.c_str (Config.arg_ssid form)) /\
  Config.c_str (Config.password s) = take 31 (Config.c_str (Config.arg_password form)) /\
  Config.c_str (Config.mqtt_server s)
    = take 39 (Config.c_str (Config.arg_mqtt_server form)) /\
  Config.c_str (Config.amplifier_name s)
    = take 31 (Config.c_str (Config.arg_amplifier_name form)) /\
  Config.mqtt_port s = Config.clamp_port (Config.arg_mqtt_port form) /\
  Config.block_ptt_seconds s = Config.clamp_block (Config.arg_block_ptt_seconds form) /\
  Config.bandBlockTimeMs s = 1000 * Config.clamp_block (Config.arg_block_ptt_seconds form).
Proof.
  intros Hmem Hport. cbv zeta. unfold Config.save_and_reboot.
  destruct (handleSave_sector form mem Hmem) as (_ & Hssid & Hpw & Hsrv & Hp & Hname & Hb).
  cbv zeta in Hssid, Hpw, Hsrv, Hp, Hname, Hb.
  unfold Config.loadConfigFromEEPROM. cbv zeta.
  cbn [Config.ssid Config.password Config.mqtt_server Config.mqtt_port
       Config.amplifier_name Config.block_ptt_seconds Config.bandBlockTimeMs
       Config.power_on].
  rewrite Hssid, Hpw, Hsrv, Hp, Hname, Hb.
  unfold Config.handleSave. cbv zeta.
  cbn [fst Config.ssid Config.password Config.mqtt_server Config.mqtt_port
       Config.amplifier_name Config.block_ptt_seconds].
  fold (Config.clamp_block (Config.arg_block_ptt_seconds form)).
  pose proof (clamp_block_range (Config.arg_block_ptt_seconds form)) as Hblock.
  rewrite !int_of_bytes_int_bytes by lia.
  fold (Config.clamp_port (Config.arg_mqtt_port form)).
  fold (Config.clamp_block (Config.clamp_block (Config.arg_block_ptt_seconds form))).
  assert (Hidem : Config.clamp_block (Config.clamp_block (Config.arg_block_ptt_seconds form))
                  = Config.clamp_block (Config.arg_block_ptt_seconds form)).
  { unfold Config.clamp_block at 1.
    destruct (Z.leb_spec (Config.clamp_block (Config.arg_block_ptt_seconds form)) 0),
      (Z.ltb_spec 600 (Config.clamp_block (Config.arg_block_ptt_seconds form)));
      cbn [orb]; lia. }
  rewrite Hidem.
  repeat split; try (apply c_str_terminate_strncpy; lia).
  apply block_ms, Hblock.
Qed.

(** Witness: a form with a 40-character SSID, port 0 and block time 30 s,
    saved over an erased sector. *)
Lemma save_and_reboot_round_trip_witness :
  let form :=
    {| Config.arg_ssid := replicate 40 65; Config.arg_password := Config.literal "secret";
       Config.arg_mqtt_server := Config.literal "10.0.0.1"; Config.arg_mqtt_port := 0;
       Config.arg_amplifier_name := Config.literal "AMP-02";
       Config.arg_block_ptt_seconds := 30 |} in
  let mem := replicate 512 255 in
  let s := Config.save_and_reboot form mem in
  length mem = Config.EEPROM_SIZE /\
  - 2 ^ 31 <= Config.arg_mqtt_port form < 2 ^ 31 /\
  Config.c_str (Config.ssid s) = take 31 (Config.c_str (Config.arg_ssid form)) /\
  Config.c_str (Config.password s) = take 31 (Config.c_str (Config.arg_password form)) /\
  Config.c_str (Config.mqtt_server s)
    = take 39 (Config.c_str (Config.arg_mqtt_server form)) /\
  Config.c_str (Config.amplifier_name s)
    = take 31 (Config.c_str (Config.arg_amplifier_name form)) /\
  Config.mqtt_port s = Config.clamp_port (Config.arg_mqtt_port form) /\
  Config.block_ptt_seconds s = Config.clamp_block (Config.arg_block_ptt_seconds form) /\
  Config.bandBlockTimeMs s = 1000 * Config.clamp_block (Config.arg_block_ptt_seconds form).
Proof.
  cbv zeta. split; [reflexivity|]. split; [cbn; lia|].
  apply (save_and_reboot_round_trip
           {| Config.arg_ssid := replicate 40 65; Config.arg_password := Config.literal "secret";
              Config.arg_mqtt_server := Config.literal "10.0.0.1"; Config.arg_mqtt_port := 0;
              Config.arg_amplifier_name := Config.literal "AMP-02";
              Config.arg_block_ptt_seconds := 30 |} (replicate 512 255)).
  - reflexivity.
  - cbn. lia.
Defined.

(** The block time that the interlock uses after a save and a restart:
    [setup()] on a sector committed by [handleSave] sets [bandBlockTimeMs]
    to a thousand times the block time of the form, or to 15000 when that
    is not between 1 s and 600 s. *)
Theorem saved_block_time_reaches_interlock
    (form : Config.Form) (mem : list Z) (env0 : Env) :
  length mem = Config.EEPROM_SIZE ->
  eeprom_block_seconds env0
  = Config.int_of_bytes
      (Config.eeprom_get Config.OFF_BLOCK_PTT_SECONDS (Config.int_bytes 15)
         (snd (Config.handleSave form mem))) ->
  block_ptt_seconds (booted env0) = Config.clamp_block (Config.arg_block_ptt_seconds form) /\
  bandBlockTimeMs (booted env0)
  = 1000 * Config.clamp_block (Config.arg_block_ptt_seconds form) /\
  1000 <= bandBlockTimeMs (booted env0) <= 600000.
Proof.
  intros Hmem Hstored.
  destruct (handleSave_sector form mem Hmem) as (_ & _ & _ & _ & _ & _ & Hb).
  cbv zeta in Hb. rewrite Hb in Hstored.
  unfold Config.handleSave in Hstored. cbv zeta in Hstored.
  cbn [fst Config.block_ptt_seconds] in Hstored.
  fold (Config.clamp_block (Config.arg_block_ptt_seconds form)) in Hstored.
  pose proof (clamp_block_range (Config.arg_block_ptt_seconds form)) as Hblock.
  rewrite int_of_bytes_int_bytes in Hstored by lia.
  destruct (booted_fields env0) as (_ & _ & _ & Hsecs & Hms & _).
  cbv zeta in Hsecs, Hms. rewrite Hstored in Hsecs, Hms.
  assert (Hkeep : (if (Config.clamp_block (Config.arg_block_ptt_seconds form) <=? 0)
                      || (600 <? Config.clamp_block (Config.arg_block_ptt_seconds form))
                   then 15 else Config.clamp_block (Config.arg_block_ptt_seconds form))
                  = Config.clamp_block (Config.arg_block_ptt_seconds form)).
  { destruct (Z.leb_spec (Config.clamp_block (Config.arg_block_ptt_seconds form)) 0),
      (Z.ltb_spec 600 (Config.clamp_block (Config.arg_block_ptt_seconds form)));
      cbn [orb]; lia. }
  rewrite Hkeep in Hsecs, Hms. rewrite Hms, block_ms by exact Hblock.
  split; [exact Hsecs|]. split; [reflexivity|]. lia.
Qed.

(** Witness: a block time of 30 s saved over an erased sector, and a boot
    that reads it back. *)
Lemma saved_block_time_reaches_interlock_witness :
  let form :=
    {| Config.arg_ssid := Config.literal "shack"; Config.arg_password := Config.literal "secret";
       Config.arg_mqtt_server := Config.literal "10.0.0.1"; Config.arg_mqtt_port := 1883;
       Config.arg_amplifier_name := Config.literal "AMP-02";
       Config.arg_block_ptt_seconds := 30 |} in
  let env0 :=
    {| pin_level := pins_of HIGH HIGH HIGH HIGH HIGH LOW; clock := fun _ => 10;
       mqtt_connected := false; eeprom_block_seconds := 30; wifi_joins := true |} in
  block_ptt_seconds (booted env0) = Config.clamp_block (Config.arg_block_ptt_seconds form) /\
  bandBlockTimeMs (booted env0)
  = 1000 * Config.clamp_block (Config.arg_block_ptt_seconds form) /\
  1000 <= bandBlockTimeMs (booted env0) <= 600000.
Proof.
  apply (saved_block_time_reaches_interlock
           {| Config.arg_ssid := Config.literal "shack";
              Config.arg_password := Config.literal "secret";
              Config.arg_mqtt_server := Config.literal "10.0.0.1"; Config.arg_mqtt_port := 1883;
              Config.arg_amplifier_name := Config.literal "AMP-02";
              Config.arg_block_ptt_seconds := 30 |}
           (replicate 512 255)
           {| pin_level := pins_of HIGH HIGH HIGH HIGH HIGH LOW; clock := fun _ => 10;
              mqtt_connected := false; eeprom_block_seconds := 30; wifi_joins := true |}).
  - reflexivity.
  - vm_compute. reflexivity.
Defined.

(** * Further properties of the earlier sketch *)

Lemma byte_land (x : Z) : 0 <= x < 256 <-> Z.land x 255 = x.
Proof.
  change 255 with (Z.ones 8). rewrite Z.land_ones by lia.
  change (2 ^ 8) with 256. split.
  - intros H. apply Z.mod_small, H.
  - intros <-. apply Z.mod_pos_bound. lia.
Qed.

Lemma switch_PORTD_byte (b portd : Z) :
  0 <= b <= 15 -> 0 <= portd < 256 -> 0 <= Basic.switch_PORTD b portd < 256.
Proof.
  intros Hb Hp. apply byte_land in Hp. apply byte_land.
  apply code_cases in Hb.
  repeat (destruct Hb as [-> | Hb]); subst; cbn [Basic.switch_PORTD];
    rewrite ?Z.land_lor_distr_l, <- ?Z.land_assoc, ?Hp; reflexivity.
Qed.

Lemma switch_PORTD_frame (b portd j : Z) :
  0 <= b <= 15 -> j = 0 \/ j = 1 \/ j = 6 \/ j = 7 ->
  Z.testbit (Basic.switch_PORTD b portd) j = Z.testbit portd j.
Proof.
  intros Hb Hj. apply code_cases in Hb.
  repeat (destruct Hb as [-> | Hb]); subst; cbn [Basic.switch_PORTD];
    rewrite ?Z.lor_spec, ?Z.land_spec;
    destruct Hj as [-> | [-> | [-> | ->]]];
    cbn; rewrite ?andb_true_r, ?orb_false_r; reflexivity.
Qed.

Lemma land_Mask_range (v : Z) : 0 <= Z.land v Mask <= 15.
Proof.
  change Mask with (Z.ones 4). rewrite Z.land_ones by lia.
  pose proof (Z.mod_pos_bound v (2 ^ 4)). lia.
Qed.

(** What [bandControl] of the earlier sketch leaves alone: the bits of
    PORTD outside the mask B00111100 (bits 0, 1, 6 and 7) keep their level
    on every call, whatever the input register shows.  The stored code
    always ends equal to the code just read, which is between 0 and 15. *)
Theorem basic_bandControl_frame (PINC : Z) (m : Basic.Machine) (j : Z) :
  j = 0 \/ j = 1 \/ j = 6 \/ j = 7 ->
  let m' := fst (Basic.bandControl PINC m) in
  Z.testbit (Basic.PORTD m') j = Z.testbit (Basic.PORTD m) j /\
  Basic.band m' = Z.land PINC Mask /\
  Basic.bandOld m' = Basic.band m' /\
  0 <= Basic.band m' <= 15.
Proof.
  intros Hj. cbv zeta. unfold Basic.bandControl.
  pose proof (land_Mask_range PINC) as Hb.
  destruct (Z.eqb_spec (Z.land PINC Mask) (Basic.bandOld m)) as [Heq | Hne];
    cbn [fst Basic.PORTD Basic.band Basic.bandOld].
  - repeat split; lia.
  - rewrite switch_PORTD_frame by assumption. repeat split; lia.
Qed.

(** Witness: the PTT bit of a register with all bits set, on a change to
    band code 14 (which clears bits 2..5). *)
Lemma basic_bandControl_frame_witness :
  let m := {| Basic.band := 7; Basic.bandOld := 7; Basic.PORTD := 255 |} in
  let m' := fst (Basic.bandControl 14 m) in
  (6 = 0 \/ 6 = 1 \/ 6 = 6 \/ 6 = 7) /\
  Z.testbit (Basic.PORTD m') 6 = Z.testbit (Basic.PORTD m) 6 /\
  Basic.band m' = Z.land 14 Mask /\
  Basic.bandOld m' = Basic.band m' /\
  0 <= Basic.band m' <= 15.
Proof.
  cbv zeta. split; [right; right; left; reflexivity|].
  apply (basic_bandControl_frame 14
           {| Basic.band := 7; Basic.bandOld := 7; Basic.PORTD := 255 |} 6).
  right; right; left; reflexivity.
Defined.

(** One pass of the earlier sketch's [loop] keeps the band outputs in
    step with the stored code: if bits 2..5 of PORTD show the pattern of
    [bandOld] (a code in [0,15]) and PORTD is an 8-bit value before the
    pass, then the same holds after it, whether the PTT input is pressed
    or not; and the PTT output is HIGH exactly when the PTT input was read
    LOW. *)
Theorem basic_loop_keeps_outputs_in_step (in_ptt : bool) (PINC : Z) (s : BasicLoop.Sketch) :
  0 <= Basic.bandOld (BasicLoop.regs s) <= 15 ->
  0 <= Basic.PORTD (BasicLoop.regs s) < 256 ->
  (forall i : nat, (i < 4)%nat ->
     Z.testbit (Basic.PORTD (BasicLoop.regs s)) (Z.of_nat i + 2)
     = Z.testbit (band_pattern (Basic.bandOld (BasicLoop.regs s))) (Z.of_nat i)) ->
  let s' := fst (BasicLoop.loop in_ptt PINC s) in
  0 <= Basic.bandOld (BasicLoop.regs s') <= 15 /\
  0 <= Basic.PORTD (BasicLoop.regs s') < 256 /\
  (forall i : nat, (i < 4)%nat ->
     Z.testbit (Basic.PORTD (BasicLoop.regs s')) (Z.of_nat i + 2)
     = Z.testbit (band_pattern (Basic.bandOld (BasicLoop.regs s'))) (Z.of_nat i)) /\
  BasicLoop.pttOutLevel s' = Bool.eqb in_ptt LOW.
Proof.
  intros Hold Hbyte Hstep. cbv zeta. unfold BasicLoop.loop.
  destruct (Bool.eqb in_ptt LOW) eqn:Hptt; cbn [fst BasicLoop.regs BasicLoop.pttOutLevel].
  - repeat split; try assumption; apply Hold || apply Hbyte.
  - unfold Basic.bandControl.
    pose proof (land_Mask_range PINC) as Hb.
    destruct (Z.eqb_spec (Z.land PINC Mask) (Basic.bandOld (BasicLoop.regs s)))
      as [Heq | Hne];
      cbn [fst BasicLoop.regs BasicLoop.pttOutLevel Basic.PORTD Basic.bandOld].
    + repeat split; try assumption; apply Hold || apply Hbyte.
    + pose proof (switch_PORTD_byte _ _ Hb Hbyte) as Hbyte'.
      repeat split; try lia.
      intros i Hi. apply switch_PORTD_bits; assumption.
Qed.

(** Witness: band code 7 (pattern 0111) on the outputs, released PTT and
    a change to code 10. *)
Lemma basic_loop_keeps_outputs_in_step_witness :
  let s := {| BasicLoop.regs := {| Basic.band := 7; Basic.bandOld := 7; Basic.PORTD := 28 |};
              BasicLoop.pttOutLevel := LOW |} in
  let s' := fst (BasicLoop.loop HIGH 10 s) in
  0 <= Basic.bandOld (BasicLoop.regs s') <= 15 /\
  0 <= Basic.PORTD (BasicLoop.regs s') < 256 /\
  (forall i : nat, (i < 4)%nat ->
     Z.testbit (Basic.PORTD (BasicLoop.regs s')) (Z.of_nat i + 2)
     = Z.testbit (band_pattern (Basic.bandOld (BasicLoop.regs s'))) (Z.of_nat i)) /\
  BasicLoop.pttOutLevel s' = Bool.eqb HIGH LOW.
Proof.
  apply (basic_loop_keeps_outputs_in_step HIGH 10
           {| BasicLoop.regs := {| Basic.band := 7; Basic.bandOld := 7; Basic.PORTD := 28 |};
              BasicLoop.pttOutLevel := LOW |}).
  - cbn. lia.
  - cbn. lia.
  - intros i Hi. destruct i as [|[|[|[|i]]]]; [reflexivity..|lia].
Defined.

(** The firmware against the earlier sketch, pass by pass.  When both
    hold the same band and are shown the same PTT input and the same
    band code, then after one pass of each they still hold the same band
    (stored code and the four output levels), and the PTT output of the
    firmware is that of the earlier sketch, forced LOW while the block
    window is active: the interlock is the only difference on these
    outputs. *)
Theorem firmware_pass_matches_basic_loop
    (env : Env) (m : Machine) (PINC : Z) (s : BasicLoop.Sketch) :
  same_band (BasicLoop.regs s) m ->
  Z.land PINC Mask = bandCode env ->
  let s' := fst (BasicLoop.loop (pin_level env pttInp) PINC s) in
  let p := pass_of env m in
  same_band (BasicLoop.regs s') (p_after p) /\
  pin_out (p_after p) !! pttOut
  = Some (BasicLoop.pttOutLevel s' && negb (blockActive env m)) /\
  (pttPressed env = false -> Basic.band (BasicLoop.regs s') = band (p_after p)).
Proof.
  intros [Hcode Hpins] Hpinc. cbv zeta.
  destruct (pass_ptt env m) as (_ & _ & Hptt & _). cbv zeta in Hptt. rewrite Hptt.
  unfold BasicLoop.loop. fold (pttPressed env).
  pose proof (bandCode_range env) as Hrange.
  destruct (pttPressed env) eqn:Hpress; cbn [fst BasicLoop.regs BasicLoop.pttOutLevel].
  - split; [|split; [reflexivity | discriminate]].
    split.
    + destruct (pass_band_state env m O ltac:(lia)) as (Hkeep & _).
      destruct (Hkeep (or_introl Hpress)) as [-> _]. exact Hcode.
    + intros i Hi.
      destruct (pass_band_state env m i Hi) as (Hkeep & _).
      destruct (Hkeep (or_introl Hpress)) as [_ ->]. apply Hpins, Hi.
  - unfold Basic.bandControl. rewrite Hpinc, Hcode.
    destruct (bandChanged env m) eqn:Hchg.
    + assert (Hne : (bandCode env =? bandOld m) = false)
        by (apply negb_true_iff; exact Hchg).
      rewrite Hne. cbn [fst BasicLoop.regs BasicLoop.pttOutLevel Basic.band].
      split; [|split; [reflexivity|]].
      * split; cbn [Basic.bandOld Basic.PORTD].
        -- destruct (pass_band_state env m O ltac:(lia)) as (_ & _ & _ & Hnew).
           destruct (Hnew Hpress Hchg) as [-> _]. reflexivity.
        -- intros i Hi.
           destruct (pass_band_state env m i Hi) as (_ & _ & _ & Hnew).
           destruct (Hnew Hpress Hchg) as [_ ->].
           rewrite band_level_testbit, switch_PORTD_bits by assumption. reflexivity.
      * intros _. destruct (pass_band_state env m O ltac:(lia)) as (_ & _ & Hb & _).
        symmetry. apply Hb, Hpress.
    + assert (Heq : (bandCode env =? bandOld m) = true)
        by (apply negb_false_iff; exact Hchg).
      rewrite Heq. cbn [fst BasicLoop.regs BasicLoop.pttOutLevel Basic.band].
      split; [|split; [reflexivity|]].
      * split; cbn [Basic.bandOld Basic.PORTD].
        -- destruct (pass_band_state env m O ltac:(lia)) as (Hkeep & _).
           destruct (Hkeep (or_intror Hchg)) as [-> _]. reflexivity.
        -- intros i Hi.
           destruct (pass_band_state env m i Hi) as (Hkeep & _).
           destruct (Hkeep (or_intror Hchg)) as [_ ->]. apply Hpins, Hi.
      * intros _. destruct (pass_band_state env m O ltac:(lia)) as (_ & _ & Hb & _).
        symmetry. apply Hb, Hpress.
Qed.

(** Witness: the firmware booted on band code 7 and the earlier sketch
    with code 7 on its outputs; the PTT is pressed 20 s after the boot,
    when the block window of the boot is over. *)
Lemma firmware_pass_matches_basic_loop_witness :
  let env := world 20000 false LOW HIGH HIGH HIGH HIGH LOW in
  let m := booted (boot_world false) in
  let s := {| BasicLoop.regs := {| Basic.band := 7; Basic.bandOld := 7; Basic.PORTD := 28 |};
              BasicLoop.pttOutLevel := LOW |} in
  let s' := fst (BasicLoop.loop (pin_level env pttInp) 247 s) in
  let p := pass_of env m in
  same_band (BasicLoop.regs s') (p_after p) /\
  pin_out (p_after p) !! pttOut
  = Some (BasicLoop.pttOutLevel s' && negb (blockActive env m)) /\
  (pttPressed env = false -> Basic.band (BasicLoop.regs s') = band (p_after p)).
Proof.
  apply (firmware_pass_matches_basic_loop
           (world 20000 false LOW HIGH HIGH HIGH HIGH LOW)
           (booted (boot_world false)) 247
           {| BasicLoop.regs := {| Basic.band := 7; Basic.bandOld := 7; Basic.PORTD := 28 |};
              BasicLoop.pttOutLevel := LOW |}).
  - split; [vm_compute; reflexivity|].
    intros i Hi. destruct i as [|[|[|[|i]]]]; [vm_compute; reflexivity..|lia].
  - vm_compute. reflexivity.
Defined.

(** * The link check *)

Lemma health_connects_iff (w : Health.Readings) (last : Z) :
  Health.connects (Health.pass_of w last) = true ->
  Health.wifi_connected w = true /\
  Health.client_connected w = false /\
  5000 < ulong (Health.now w - last) /\
  Health.after (Health.pass_of w last) = Health.now w.
Proof.
  unfold Health.connects, Health.pass_of, Health.loop_tail, Health.reconnectMQTT.
  cbn [Health.events Health.after].
  destruct (Health.client_connected w), (Health.wifi_connected w), (Health.ap_mode w);
    cbn [negb andb];
    destruct (Z.ltb_spec 5000 (ulong (Health.now w - last)));
    cbn [fst snd app existsb Health.is_connect orb];
    try discriminate; intros _; repeat split; assumption.
Qed.

Lemma health_after_cases (w : Health.Readings) (last : Z) :
  Health.after (Health.pass_of w last) = last \/
  Health.after (Health.pass_of w last) = Health.now w.
Proof.
  unfold Health.pass_of, Health.loop_tail. cbn [Health.after].
  destruct (_ && _); cbn [fst]; [right | left]; reflexivity.
Qed.

(** While the clock advances from [prev] on, a [lastMQTTCheck] between 0
    and [prev] stays at or above its start and at or below the reading
    of each pass. *)
Lemma health_before_bounds (ws : list Health.Readings) (last prev : Z) :
  0 <= last <= prev ->
  Health.clock_advances prev (map Health.now ws) ->
  Forall (fun p => last <= Health.before p <= Health.now (Health.readings p)
                   /\ Health.now (Health.readings p) < 2 ^ ULONG_BITS)
    (Health.run last ws).
Proof.
  revert last prev. induction ws as [|w ws IH]; intros last prev Hlast Hclock.
  - constructor.
  - cbn [map Health.clock_advances] in Hclock. destruct Hclock as [Hw Hrest].
    cbn [Health.run]. constructor.
    + cbn [Health.pass_of Health.before Health.readings]. lia.
    + assert (Hafter : last <= Health.after (Health.pass_of w last) <= Health.now w)
        by (destruct (health_after_cases w last) as [-> | ->]; lia).
      eapply Forall_impl;
        [apply (IH (Health.after (Health.pass_of w last)) (Health.now w)); [lia | exact Hrest]|].
      cbn beta. intros p Hp. lia.
Qed.

(** The connection attempts are rate-limited.  On a clock that does not
    run backwards and does not wrap, [client.connect] is called only
    while the WiFi is up and the client is not connected, never within
    the 5000 ms after the start value of [lastMQTTCheck] (0 at boot), and
    any two passes that call it are more than 5000 ms apart. *)
Theorem mqtt_connects_rate_limited (ws : list Health.Readings) (last0 : Z) :
  0 <= last0 ->
  Health.clock_advances last0 (map Health.now ws) ->
  let passes := Health.run last0 ws in
  (forall (i : nat) (p : Health.Pass),
     passes !! i = Some p -> Health.connects p = true ->
     Health.wifi_connected (Health.readings p) = true /\
     Health.client_connected (Health.readings p) = false /\
     5000 < Health.now (Health.readings p) - last0) /\
  (forall (i j : nat) (p q : Health.Pass),
     passes !! i = Some p -> passes !! j = Some q -> (i < j)%nat ->
     Health.connects p = true -> Health.connects q = true ->
     5000 < Health.now (Health.readings q) - Health.now (Health.readings p)).
Proof.
  intros Hlast Hclock. cbv zeta.
  assert (Hgap : forall ws last prev (i : nat) (p : Health.Pass),
             0 <= last <= prev ->
             Health.clock_advances prev (map Health.now ws) ->
             Health.run last ws !! i = Some p -> Health.connects p = true ->
             Health.wifi_connected (Health.readings p) = true /\
             Health.client_connected (Health.readings p) = false /\
             5000 < Health.now (Health.readings p) - Health.before p /\
             last <= Health.before p /\
             Health.after p = Health.now (Health.readings p)).
  { clear. intros ws last prev i p Hl Hc Hp Hcon.
    pose proof (health_before_bounds ws last prev Hl Hc) as Hall.
    rewrite Forall_lookup in Hall. specialize (Hall i p Hp). cbn beta in Hall.
    assert (Hshape : p = Health.pass_of (Health.readings p) (Health.before p)).
    { clear -Hp. revert last i Hp. induction ws as [|w ws IH]; intros last i Hp.
      - discriminate.
      - destruct i as [|i]; cbn [Health.run] in Hp.
        + injection Hp as <-. reflexivity.
        + exact (IH _ _ Hp). }
    rewrite Hshape in Hcon.
    destruct (health_connects_iff _ _ Hcon) as (Hwifi & Hcl & Hout & Hafter).
    rewrite <- Hshape in Hafter.
    unfold ulong in Hout. rewrite Z.mod_small in Hout by lia.
    repeat split; try assumption; lia. }
  split.
  - intros i p Hp Hcon.
    destruct (Hgap ws last0 last0 i p ltac:(lia) Hclock Hp Hcon) as (Hw & Hc & Hg & Hb & _).
    repeat split; try assumption; lia.
  - revert last0 Hlast Hclock.
    induction ws as [|w ws IH]; intros last0 Hlast Hclock i j p q Hp Hq Hij Hcp Hcq.
    + discriminate.
    + cbn [map Health.clock_advances] in Hclock. destruct Hclock as [Hw Hrest].
      destruct j as [|j]; [lia|]. cbn [Health.run] in Hp, Hq.
      assert (Hafter : 0 <= Health.after (Health.pass_of w last0) <= Health.now w)
        by (destruct (health_after_cases w last0) as [-> | ->]; lia).
      destruct i as [|i].
      * injection Hp as <-.
        destruct (health_connects_iff _ _ Hcp) as (_ & _ & _ & Hnow).
        destruct (Hgap ws _ (Health.now w) j q Hafter Hrest Hq Hcq) as (_ & _ & Hg & Hb & _).
        cbn [Health.pass_of Health.readings]. rewrite Hnow in Hb. lia.
      * apply (IH (Health.after (Health.pass_of w last0))
                 ltac:(lia)) with (i := i) (j := j); try assumption; [|lia].
        clear -Hrest Hafter.
        destruct ws as [|w' ws']; [exact I|].
        cbn [map Health.clock_advances] in *.
        destruct Hrest as [Hw' Hrest']. split; [lia | exact Hrest'].
Qed.

(** Witness: the link is down from boot on; passes at 3 s, 6 s, 9 s and
    12 s call [client.connect] at 6 s and at 12 s. *)
Lemma mqtt_connects_rate_limited_witness :
  let w t := {| Health.now := t; Health.wifi_connected := true; Health.ap_mode := false;
                Health.client_connected := false; Health.connect_ok := false |} in
  let ws := [w 3000; w 6000; w 9000; w 12000] in
  let passes := Health.run 0 ws in
  map Health.connects passes = [false; true; false; true] /\
  (forall (i : nat) (p : Health.Pass),
     passes !! i = Some p -> Health.connects p = true ->
     Health.wifi_connected (Health.readings p) = true /\
     Health.client_connected (Health.readings p) = false /\
     5000 < Health.now (Health.readings p) - 0) /\
  (forall (i j : nat) (p q : Health.Pass),
     passes !! i = Some p -> passes !! j = Some q -> (i < j)%nat ->
     Health.connects p = true -> Health.connects q = true ->
     5000 < Health.now (Health.readings q) - Health.now (Health.readings p)).
Proof.
  cbv zeta. split; [vm_compute; reflexivity|].
  apply (mqtt_connects_rate_limited
           [ {| Health.now := 3000; Health.wifi_connected := true; Health.ap_mode := false;
                Health.client_connected := false; Health.connect_ok := false |};
             {| Health.now := 6000; Health.wifi_connected := true; Health.ap_mode := false;
                Health.client_connected := false; Health.connect_ok := false |};
             {| Health.now := 9000; Health.wifi_connected := true; Health.ap_mode := false;
                Health.client_connected := false; Health.connect_ok := false |};
             {| Health.now := 12000; Health.wifi_connected := true; Health.ap_mode := false;
                Health.client_connected := false; Health.connect_ok := false |} ] 0).
  - lia.
  - cbn. unfold ULONG_BITS. lia.
Defined.
